(** * opencode-transmute: configuration, plugin entry point and workspace flow

    A shallow embedding of the TypeScript sources of the [opencode-transmute]
    package:

    - [core/config.ts]: the zod schema of the configuration, the layered
      [loadConfig], [getHooksConfig] and [resolveWorktreesDir];
    - the plugin entry points (the [start-task] tool and
      [createTerminalAdapter]);
    - the branch namer, session store, worktree manager and the
      create-or-resume orchestrator, whose modules are not part of the
      sources at hand and are modelled from the specification.

    JavaScript values are an inductive type, exceptions are the [Throw]
    case of [Result], [undefined]-able fields are [option]s. *)

From Stdlib Require Import String Ascii List ZArith QArith Bool Lia PeanoNat
  Permutation.
Import ListNotations.
Close Scope Q_scope.
Open Scope list_scope.
Open Scope string_scope.

Set Implicit Arguments.
Set Warnings "-register-all".

(** ** Exceptions *)

(** A JavaScript computation either returns or throws; the payload of a
    throw is the message of the [Error]. *)
Inductive Result (A : Type) : Type :=
| Ok (a : A)
| Throw (msg : string).
Arguments Ok {A} a.
Arguments Throw {A} msg.

Definition bind {A B} (r : Result A) (k : A -> Result B) : Result B :=
  match r with
  | Ok a => k a
  | Throw m => Throw m
  end.

(** [try { body } catch { handler }] *)
Definition tryCatch {A} (body : Result A) (handler : string -> Result A) : Result A :=
  match body with
  | Ok a => Ok a
  | Throw m => handler m
  end.

Declare Scope result_scope.
Delimit Scope result_scope with result.
Notation "x <- c ;; k" := (bind c (fun x => k))
  (at level 61, c at next level, right associativity) : result_scope.

(** ** JavaScript values *)

(** What [JSON.parse] or a dynamic [import] can hand to the schema.
    Numbers are the finite ones, as rationals. An object is the list of its
    own properties; a key is looked up at its first occurrence. *)
Inductive value : Type :=
| VUndefined
| VNull
| VBool (b : bool)
| VNum (q : Q)
| VStr (s : string)
| VArr (items : list value)
| VObj (fields : list (string * value)).

(** [obj[key]], [undefined] when the property is missing. *)
Fixpoint getProp (key : string) (fields : list (string * value)) : value :=
  match fields with
  | [] => VUndefined
  | (k, v) :: rest => if String.eqb k key then v else getProp key rest
  end.

(** [key in obj] *)
Fixpoint hasProp (key : string) (fields : list (string * value)) : bool :=
  match fields with
  | [] => false
  | (k, _) :: rest => String.eqb k key || hasProp key rest
  end.

(** The object without the property [key]. *)
Definition dropKey (key : string) (fields : list (string * value))
  : list (string * value) :=
  filter (fun kv => negb (String.eqb (fst kv) key)) fields.

(** JavaScript truthiness, as used by [if (x)], [x || y] and [!x]. *)
Definition truthy (v : value) : bool :=
  match v with
  | VUndefined | VNull => false
  | VBool b => b
  | VNum q => negb (Qeq_bool q 0)
  | VStr s => negb (String.eqb s EmptyString)
  | VArr _ | VObj _ => true
  end.

(** [typeof v === "object"] *)
Definition typeofObject (v : value) : bool :=
  match v with
  | VNull | VArr _ | VObj _ => true
  | _ => false
  end.

(** [s || fallback] on strings: the empty string is falsy. *)
Definition strOr (s fallback : string) : string :=
  if String.eqb s EmptyString then fallback else s.

(** [s || fallback] on a possibly undefined string. *)
Definition optStrOr (s : option string) (fallback : string) : string :=
  match s with
  | Some x => strOr x fallback
  | None => fallback
  end.

(** ** POSIX paths ([node:path]) *)

Module Path.

(** [s.split(sep)]: never empty, keeps empty pieces. *)
Fixpoint splitOn (sep : ascii) (s : string) : list string :=
  match s with
  | EmptyString => [EmptyString]
  | String c rest =>
      if Ascii.eqb c sep then EmptyString :: splitOn sep rest
      else match splitOn sep rest with
           | [] => [String c EmptyString]
           | h :: t => String c h :: t
           end
  end.

(** One segment of [normalizeString]; the stack has the last kept segment
    first. *)
Definition normStep (allowAboveRoot : bool) (stack : list string) (seg : string)
  : list string :=
  if String.eqb seg EmptyString || String.eqb seg "." then stack
  else if String.eqb seg ".." then
    match stack with
    | top :: below =>
        if String.eqb top ".." then seg :: stack else below
    | [] => if allowAboveRoot then [seg] else []
    end
  else seg :: stack.

Definition normalizeString (path : string) (allowAboveRoot : bool) : string :=
  String.concat "/"
    (rev (fold_left (normStep allowAboveRoot) (splitOn "/" path) [])).

Definition startsWithSlash (s : string) : bool :=
  match s with
  | String c _ => Ascii.eqb c "/"
  | EmptyString => false
  end.

Fixpoint endsWithSlash (s : string) : bool :=
  match s with
  | EmptyString => false
  | String c EmptyString => Ascii.eqb c "/"
  | String _ rest => endsWithSlash rest
  end.

(** [path.normalize] *)
Definition normalize (path : string) : string :=
  if String.eqb path EmptyString then "."
  else
    let isAbsolute := startsWithSlash path in
    let trailingSeparator := endsWithSlash path in
    let p := normalizeString path (negb isAbsolute) in
    if String.eqb p EmptyString then
      if isAbsolute then "/" else if trailingSeparator then "./" else "."
    else
      let p' := if trailingSeparator then p ++ "/" else p in
      if isAbsolute then "/" ++ p' else p'.

(** [path.join(...parts)] *)
Definition join (parts : list string) : string :=
  let joined :=
    String.concat "/" (filter (fun p => negb (String.eqb p EmptyString)) parts) in
  if String.eqb joined EmptyString then "." else normalize joined.

(** [path.resolve(...parts)]: the parts are taken from the right up to the
    first absolute one, the working directory [cwd] (absolute) last. *)
Fixpoint resolveFrom (parts : list string) : string :=
  match parts with
  | [] => EmptyString
  | p :: rest =>
      let resolvedPath := resolveFrom rest in
      if startsWithSlash resolvedPath then resolvedPath
      else if String.eqb p EmptyString then resolvedPath
      else p ++ "/" ++ resolvedPath
  end.

Definition resolve (cwd : string) (parts : list string) : string :=
  "/" ++ normalizeString (resolveFrom (cwd :: parts)) false.

End Path.

(** ** Configuration ([core/config.ts]) *)

Module Configuration.

(** [branchTypeSchema] of [core/naming.ts]: the six branch type prefixes. *)
Inductive BranchType := Feat | Fix | Refactor | Docs | Chore | Test.

Definition branchTypeName (t : BranchType) : string :=
  match t with
  | Feat => "feat" | Fix => "fix" | Refactor => "refactor"
  | Docs => "docs" | Chore => "chore" | Test => "test"
  end.

Definition allBranchTypes : list BranchType :=
  [Feat; Fix; Refactor; Docs; Chore; Test].

(** [terminalTypeSchema = z.enum(["wezterm", "tmux", "kitty", "none"])] *)
Inductive TerminalType := Wezterm | Tmux | Kitty | NoTerminal.

Definition terminalTypeName (t : TerminalType) : string :=
  match t with
  | Wezterm => "wezterm" | Tmux => "tmux" | Kitty => "kitty"
  | NoTerminal => "none"
  end.

Definition allTerminalTypes : list TerminalType := [Wezterm; Tmux; Kitty; NoTerminal].

(** [HooksConfig] of [core/hooks.ts]: two optional lists of shell commands. *)
Record HooksConfig := mkHooks {
  afterCreate : option (list string);
  beforeDestroy : option (list string)
}.

Record Config := mkConfig {
  worktreesDir : string;
  defaultBranchType : BranchType;
  maxBranchSlugLength : positive;
  hooks : HooksConfig;
  terminal : TerminalType;
  autoOpenTerminal : bool;
  autoRunHooks : bool;
  defaultBaseBranch : string;
  useAiBranchNaming : bool
}.

Inductive ConfigSource := SourceOpencodeConfig | SourceJson | SourceDefault.

Definition configSourceName (s : ConfigSource) : string :=
  match s with
  | SourceOpencodeConfig => "opencode.config.ts"
  | SourceJson => "json"
  | SourceDefault => "default"
  end.

Record LoadConfigResult := mkLoadConfigResult {
  config : Config;
  source : ConfigSource;
  configPath : option string
}.

(** What the process sees of the outside world while loading configuration. *)
Record Runtime := mkRuntime {
  (** the working directory, absolute *)
  cwd : string;
  (** [fs.access(path, F_OK)] resolves *)
  access : string -> bool;
  (** [fs.readFile(path, "utf-8")] *)
  readFile : string -> Result string;
  (** [await import(absolutePath)]: the module namespace object *)
  importModule : string -> Result value
}.

Module Zod.

(** The first entry of an enumeration whose name is [s]. *)
Fixpoint enumOf {A} (name : A -> string) (all : list A) (s : string) : option A :=
  match all with
  | [] => None
  | a :: rest => if String.eqb (name a) s then Some a else enumOf name rest s
  end.

Definition invalid {A} (what : string) : Result A :=
  Throw ("Invalid " ++ what).

(** [z.string()] *)
Definition string_ (what : string) (v : value) : Result string :=
  match v with
  | VStr s => Ok s
  | _ => invalid what
  end.

(** [z.boolean()] *)
Definition boolean (what : string) (v : value) : Result bool :=
  match v with
  | VBool b => Ok b
  | _ => invalid what
  end.

(** [z.enum([...])] *)
Definition enum {A} (name : A -> string) (all : list A) (what : string)
    (v : value) : Result A :=
  match v with
  | VStr s => match enumOf name all s with
              | Some a => Ok a
              | None => invalid what
              end
  | _ => invalid what
  end.

(** [z.number().int().positive()] *)
Definition positiveInt (what : string) (v : value) : Result positive :=
  match v with
  | VNum q =>
      let r := Qred q in
      match Qnum r, Qden r with
      | Zpos n, xH => Ok n
      | _, _ => invalid what
      end
  | _ => invalid what
  end.

(** [z.array(z.string())] *)
Fixpoint stringItems (what : string) (items : list value) : Result (list string) :=
  match items with
  | [] => Ok []
  | v :: rest =>
      match string_ what v, stringItems what rest with
      | Ok s, Ok ss => Ok (s :: ss)
      | Throw m, _ => Throw m
      | _, Throw m => Throw m
      end
  end.

Definition stringArray (what : string) (v : value) : Result (list string) :=
  match v with
  | VArr items => stringItems what items
  | _ => invalid what
  end.

(** [schema.optional()] *)
Definition optional {A} (schema : value -> Result A) (v : value)
  : Result (option A) :=
  match v with
  | VUndefined => Ok None
  | _ => match schema v with
         | Ok a => Ok (Some a)
         | Throw m => Throw m
         end
  end.

(** [schema.default(d)] *)
Definition default {A} (schema : value -> Result A) (d : A) (v : value)
  : Result A :=
  match v with
  | VUndefined => Ok d
  | _ => schema v
  end.

End Zod.

(** Modelled from the spec: [hooksConfigSchema] of [core/hooks.ts] is not
    among the sources; the hook command lists ([afterCreate],
    [beforeDestroy]) are each optional lists of strings, as the [Config]
    values built in [config.test.ts] show. *)
Definition hooksConfigSchema (v : value) : Result HooksConfig :=
  match v with
  | VObj fields =>
      (a <- Zod.optional (Zod.stringArray "hooks.afterCreate")
             (getProp "afterCreate" fields) ;;
       b <- Zod.optional (Zod.stringArray "hooks.beforeDestroy")
             (getProp "beforeDestroy" fields) ;;
       Ok (mkHooks a b))%result
  | _ => Zod.invalid "hooks"
  end.

(** A hooks value written back as a JavaScript object. *)
Definition hooksValue (h : HooksConfig) : value :=
  let field (k : string) (o : option (list string)) :=
    match o with
    | Some l => [(k, VArr (map VStr l))]
    | None => []
    end in
  VObj (field "afterCreate" (afterCreate h)
        ++ field "beforeDestroy" (beforeDestroy h))%list.

Section Loading.

(** [defaultHooks] of [core/hooks.ts], a constant the sources do not show. *)
Variable defaultHooks : HooksConfig.

(** [JSON.parse], throwing on text that is not JSON. *)
Variable JSON_parse : string -> Result value.

(** [configSchema.parse(input)]: every key has a default, unknown keys are
    dropped, a present key of the wrong shape is an error. *)
Definition configSchema (input : value) : Result Config :=
  match input with
  | VObj f =>
      (worktreesDir <-
         Zod.default (Zod.string_ "worktreesDir") "./worktrees"
           (getProp "worktreesDir" f) ;;
       defaultBranchType <-
         Zod.default (Zod.enum branchTypeName allBranchTypes "defaultBranchType")
           Feat (getProp "defaultBranchType" f) ;;
       maxBranchSlugLength <-
         Zod.default (Zod.positiveInt "maxBranchSlugLength") 40%positive
           (getProp "maxBranchSlugLength" f) ;;
       hooks <-
         Zod.default hooksConfigSchema defaultHooks (getProp "hooks" f) ;;
       terminal <-
         Zod.default (Zod.enum terminalTypeName allTerminalTypes "terminal")
           Wezterm (getProp "terminal" f) ;;
       autoOpenTerminal <-
         Zod.default (Zod.boolean "autoOpenTerminal") true
           (getProp "autoOpenTerminal" f) ;;
       autoRunHooks <-
         Zod.default (Zod.boolean "autoRunHooks") true
           (getProp "autoRunHooks" f) ;;
       defaultBaseBranch <-
         Zod.default (Zod.string_ "defaultBaseBranch") "main"
           (getProp "defaultBaseBranch" f) ;;
       useAiBranchNaming <-
         Zod.default (Zod.boolean "useAiBranchNaming") true
           (getProp "useAiBranchNaming" f) ;;
       Ok (mkConfig worktreesDir defaultBranchType maxBranchSlugLength hooks
             terminal autoOpenTerminal autoRunHooks defaultBaseBranch
             useAiBranchNaming))%result
  | _ => Zod.invalid "config"
  end.

Definition defaultConfig : Config := {|
  worktreesDir := "./worktrees";
  defaultBranchType := Feat;
  maxBranchSlugLength := 40;
  hooks := defaultHooks;
  terminal := Wezterm;
  autoOpenTerminal := true;
  autoRunHooks := true;
  defaultBaseBranch := "main";
  useAiBranchNaming := true
|}.

Definition CONFIG_FILES : list string :=
  [".opencode/transmute.config.json"; "transmute.config.json"].

Definition fileExists (rt : Runtime) (path : string) : bool :=
  access rt path.

Fixpoint findConfigFileIn (rt : Runtime) (basePath : string)
    (files : list string) : option string :=
  match files with
  | [] => None
  | configFile :: rest =>
      let fullPath := Path.join [basePath; configFile] in
      if fileExists rt fullPath then Some fullPath
      else findConfigFileIn rt basePath rest
  end.

Definition findConfigFile (rt : Runtime) (basePath : string) : option string :=
  findConfigFileIn rt basePath CONFIG_FILES.

Definition loadConfigFromFile (rt : Runtime) (configPath : string)
  : Result value :=
  (content <- readFile rt configPath ;;
   JSON_parse content)%result.

(** [v[key]] for a string key that is no array index: a [TypeError] on
    [undefined] and [null], [undefined] on other values without the key. *)
Definition propertyOf (v : value) (key : string) : Result value :=
  match v with
  | VUndefined | VNull => Throw "TypeError: cannot read properties"
  | VObj f => Ok (getProp key f)
  | _ => Ok VUndefined
  end.

(** [key in v] for a value with [typeof v === "object"]. *)
Definition keyIn (key : string) (v : value) : bool :=
  match v with
  | VObj f => hasProp key f
  | _ => false
  end.

Definition loadConfigFromOpencodeConfig (rt : Runtime) (basePath : string)
  : Result value :=
  let configPath := Path.join [basePath; "opencode.config.ts"] in
  if negb (fileExists rt configPath) then Ok VUndefined
  else
    tryCatch
      (let absolutePath := Path.resolve (cwd rt) [configPath] in
       module <- importModule rt absolutePath ;;
       dflt <- propertyOf module "default" ;;
       let config := if truthy dflt then dflt else module in
       if truthy config && typeofObject config && keyIn "transmute" config
       then propertyOf config "transmute"
       else Ok VUndefined)%result
      (fun _ => Ok VUndefined).

Definition mergeConfig (partial : value) : Result Config :=
  configSchema partial.

Inductive ConfigValidationResult :=
| ValidationSuccess (data : Config)
| ValidationFailure (error : string).

(** [configSchema.safeParse(config)] *)
Definition validateConfig (config : value) : ConfigValidationResult :=
  match configSchema config with
  | Ok data => ValidationSuccess data
  | Throw error => ValidationFailure error
  end.

(** The first [try] block of [loadConfig]: [Some] is its [return], [None]
    is falling out of the block, through the [if] or through the [catch]. *)
Definition tryOpencodeConfig (rt : Runtime) (basePath : string)
  : Result (option LoadConfigResult) :=
  tryCatch
    (opencodeConfig <- loadConfigFromOpencodeConfig rt basePath ;;
     if truthy opencodeConfig then
       config <- mergeConfig opencodeConfig ;;
       Ok (Some {| config := config;
                   source := SourceOpencodeConfig;
                   configPath :=
                     Some (Path.join [basePath; "opencode.config.ts"]) |})
     else Ok None)%result
    (fun _ => Ok None).

(** The second step of [loadConfig], with its own [try] block. *)
Definition tryJsonConfig (rt : Runtime) (basePath : string)
  : Result (option LoadConfigResult) :=
  match findConfigFile rt basePath with
  | Some jsonConfigPath =>
      tryCatch
        (partialConfig <- loadConfigFromFile rt jsonConfigPath ;;
         config <- mergeConfig partialConfig ;;
         Ok (Some {| config := config;
                     source := SourceJson;
                     configPath := Some jsonConfigPath |}))%result
        (fun _ => Ok None)
  | None => Ok None
  end.

Definition loadConfig (rt : Runtime) (basePath : string)
  : Result LoadConfigResult :=
  (fromOpencode <- tryOpencodeConfig rt basePath ;;
   match fromOpencode with
   | Some result => Ok result
   | None =>
       fromJson <- tryJsonConfig rt basePath ;;
       match fromJson with
       | Some result => Ok result
       | None => Ok {| config := defaultConfig;
                       source := SourceDefault;
                       configPath := None |}
       end
   end)%result.

(** [!list?.length]: the list is missing or empty. *)
Definition noLength (l : option (list string)) : bool :=
  match l with
  | None => true
  | Some l => Nat.eqb (List.length l) 0
  end.

(** A hook list that is empty or absent. *)
Definition emptyOrAbsent (l : option (list string)) : Prop :=
  l = None \/ l = Some [].

(** A [Config] always carries a [hooks] object, so the [!hooks] disjunct of
    the source is [false]. *)
Definition getHooksConfig (config : Config) : HooksConfig :=
  let hooks := hooks config in
  if false || (noLength (afterCreate hooks) && noLength (beforeDestroy hooks))
  then defaultHooks
  else hooks.

Definition resolveWorktreesDir (rt : Runtime) (basePath : string)
    (config : Config) : string :=
  let worktreesDir := worktreesDir config in
  if Path.startsWithSlash worktreesDir then worktreesDir
  else Path.resolve (cwd rt) [basePath; worktreesDir].

End Loading.

End Configuration.
Import Configuration.

(** ** Terminal adapters ([adapters/terminal/types.ts]) *)

Record OpenSessionOptions := mkOpenSession {
  sessionCwd : string;
  sessionTitle : string;
  sessionCommand : option string
}.

(** The capability a terminal integration offers; [openSession] may throw. *)
Record TerminalAdapter := mkTerminal {
  name : string;
  isAvailable : bool;
  openSession : OpenSessionOptions -> Result unit
}.

(** ** The result of the create-or-resume operation *)

Module Workspace.

Inductive Status := created | existing | failed.

Definition statusName (s : Status) : string :=
  match s with
  | created => "created" | existing => "existing" | failed => "failed"
  end.

Record WorkspaceResult := mkResult {
  status : Status;
  taskId : string;
  taskName : option string;
  branch : option string;
  worktreePath : option string;
  opencodeSessionId : option string;
  message : option string
}.

End Workspace.
Import Workspace.

(** A possibly undefined string as a JavaScript value. *)
Definition optStr (s : option string) : value :=
  match s with
  | Some x => VStr x
  | None => VUndefined
  end.

(** ** The plugin entry point with configuration ([start-task], guarded) *)

Module Plugin.

Record StartTaskInput := mkInput {
  taskId : string;
  title : string;
  description : option string;
  priority : option string;
  type : option string;
  baseBranch : option string
}.

Record ToolContext := mkContext { sessionID : string }.

Section Tool.

(** The AI client handed over by the host. *)
Variable OpenCodeClient : Type.

Record StartTaskOptions := mkOptions {
  client : option OpenCodeClient;
  opencodeSessionId : option string;
  terminal : option TerminalAdapter;
  openTerminal : bool;
  runHooks : bool;
  hooks : HooksConfig
}.

(** [createWezTermAdapter()] of [adapters/terminal/wezterm.ts]. *)
Variable createWezTermAdapter : TerminalAdapter.

(** [startTask] of [tools/start-task.ts]: whatever it does, it returns a
    result or throws. *)
Variable startTask :
  StartTaskInput -> string -> StartTaskOptions -> Result WorkspaceResult.

Variable JSON_stringify : value -> string.

Definition createTerminalAdapter (config : Config) : option TerminalAdapter :=
  match Configuration.terminal config with
  | Wezterm => Some createWezTermAdapter
  | NoTerminal => None
  | _ => Some createWezTermAdapter
  end.

(** What the plugin function has computed when the tool is registered. *)
Record Closure := mkClosure {
  ctxClient : OpenCodeClient;
  basePath : string;
  config : Config;
  source : ConfigSource;
  adapter : option TerminalAdapter;
  resolvedHooks : HooksConfig
}.

(** The first argument [execute] builds for [startTask]. *)
Definition startTaskInput (env : Closure) (args : StartTaskInput)
  : StartTaskInput :=
  {| taskId := taskId args;
     title := title args;
     description := description args;
     priority := priority args;
     type := type args;
     baseBranch :=
       Some (optStrOr (baseBranch args) (defaultBaseBranch (config env))) |}.

(** The third argument [execute] builds for [startTask]. *)
Definition startTaskOptions (env : Closure) (context : ToolContext)
  : StartTaskOptions :=
  {| client := if useAiBranchNaming (config env)
               then Some (ctxClient env) else None;
     opencodeSessionId := Some (sessionID context);
     terminal := adapter env;
     openTerminal := autoOpenTerminal (config env);
     runHooks := autoRunHooks (config env);
     hooks := resolvedHooks env |}.

(** The message built from the status of the result. *)
Definition resultMessage (result : WorkspaceResult) : string :=
  match status result with
  | created => "Created new worktree for task: " ++ Workspace.taskId result
  | existing =>
      "Resumed existing worktree for task: " ++ Workspace.taskId result
  | failed =>
      optStrOr (Workspace.message result)
        ("Failed to start task: " ++ Workspace.taskId result)
  end.

(** The object serialised in the [try] block. *)
Definition resultPayload (env : Closure) (result : WorkspaceResult) : value :=
  VObj [("status", VStr (statusName (status result)));
        ("message", VStr (resultMessage result));
        ("taskId", VStr (Workspace.taskId result));
        ("taskName", optStr (taskName result));
        ("branch", optStr (branch result));
        ("worktreePath", optStr (worktreePath result));
        ("opencodeSessionId", optStr (Workspace.opencodeSessionId result));
        ("configSource", VStr (configSourceName (source env)))].

(** The object serialised in the [catch] block. *)
Definition errorPayload (args : StartTaskInput) (errorMessage : string)
  : value :=
  VObj [("status", VStr "failed");
        ("message", VStr ("Error: " ++ errorMessage));
        ("taskId", VStr (strOr (taskId args) "unknown"))].

(** [execute(args, context)] of the [start-task] tool. *)
Definition execute (env : Closure) (args : StartTaskInput)
    (context : ToolContext) : Result string :=
  tryCatch
    (result <-
       startTask (startTaskInput env args) (basePath env)
         (startTaskOptions env context) ;;
     Ok (JSON_stringify (resultPayload env result)))%result
    (fun errorMessage => Ok (JSON_stringify (errorPayload args errorMessage))).

End Tool.

End Plugin.

(** ** The plugin entry point without configuration ([start-task], unguarded)

    The other definition of the [start-task] tool among the sources: the
    repository root is looked up inside [execute], the options are fixed
    and nothing is caught. *)

Module PluginNoConfig.

Section Tool.

Variable OpenCodeClient : Type.

Variable createWezTermAdapter : TerminalAdapter.

Variable startTask :
  Plugin.StartTaskInput -> string -> Plugin.StartTaskOptions OpenCodeClient
  -> Result WorkspaceResult.

Variable JSON_stringify : value -> string.

(** [getGitRoot()] of [core/exec.ts], throwing outside a repository. *)
Variable getGitRoot : Result string.

(** The options literal of the call. *)
Definition startTaskOptions (ctxClient : OpenCodeClient)
    (context : Plugin.ToolContext) : Plugin.StartTaskOptions OpenCodeClient :=
  {| Plugin.client := Some ctxClient;
     Plugin.opencodeSessionId := Some (Plugin.sessionID context);
     Plugin.terminal := Some createWezTermAdapter;
     Plugin.openTerminal := true;
     Plugin.runHooks := true;
     Plugin.hooks :=
       {| afterCreate := Some ["[ -f package.json ] && pnpm install || true"];
          beforeDestroy := None |} |}.

(** The object it serialises: the message is chosen between two. *)
Definition resultPayload (result : WorkspaceResult) : value :=
  VObj [("status", VStr (statusName (status result)));
        ("message",
         VStr (match status result with
               | created =>
                   "Created new worktree for task: " ++ Workspace.taskId result
               | _ =>
                   "Resumed existing worktree for task: "
                   ++ Workspace.taskId result
               end));
        ("taskId", VStr (Workspace.taskId result));
        ("taskName", optStr (taskName result));
        ("branch", optStr (branch result));
        ("worktreePath", optStr (worktreePath result));
        ("opencodeSessionId", optStr (Workspace.opencodeSessionId result))].

(** [execute(args, context)] of the [start-task] tool. *)
Definition execute (ctxClient : OpenCodeClient) (args : Plugin.StartTaskInput)
    (context : Plugin.ToolContext) : Result string :=
  (basePath <- getGitRoot ;;
   result <-
     startTask
       {| Plugin.taskId := Plugin.taskId args;
          Plugin.title := Plugin.title args;
          Plugin.description := Plugin.description args;
          Plugin.priority := Plugin.priority args;
          Plugin.type := Plugin.type args;
          Plugin.baseBranch := Plugin.baseBranch args |}
       basePath
       (startTaskOptions ctxClient context) ;;
   Ok (JSON_stringify (resultPayload result)))%result.

End Tool.

End PluginNoConfig.

(** ** Branch namer *)

Module Naming.

Inductive Priority := low | medium | high | critical.

Record TaskDescriptor := mkTask {
  taskId : string;
  title : string;
  description : option string;
  priority : option Priority;
  type : option BranchType
}.

Module BranchName.
Record t := mk { type : BranchType; slug : string }.
End BranchName.

(** The full branch string, [type/slug]. *)
Definition branchString (b : BranchName.t) : string :=
  branchTypeName (BranchName.type b) ++ "/" ++ BranchName.slug b.

Definition code (c : ascii) : nat := nat_of_ascii c.

Definition isUpper (c : ascii) : bool := (65 <=? code c)%nat && (code c <=? 90)%nat.
Definition isLower (c : ascii) : bool := (97 <=? code c)%nat && (code c <=? 122)%nat.
Definition isDigit (c : ascii) : bool := (48 <=? code c)%nat && (code c <=? 57)%nat.
Definition isHyphen (c : ascii) : bool := Ascii.eqb c "-".
Definition isAlnum (c : ascii) : bool := isLower c || isDigit c.

(** The characters of a slug, [[a-z0-9-]]. *)
Definition slugChar (c : ascii) : bool := isLower c || isDigit c || isHyphen c.

Definition toLowerChar (c : ascii) : ascii :=
  if isUpper c then ascii_of_nat (code c + 32) else c.

(** Every run of characters outside [[a-z0-9]] becomes one hyphen;
    [inRun] tells that the hyphen of the current run is already out. *)
Fixpoint replaceRuns (inRun : bool) (l : list ascii) : list ascii :=
  match l with
  | [] => []
  | c :: rest =>
      if isAlnum c then c :: replaceRuns false rest
      else if inRun then replaceRuns true rest
      else "-"%char :: replaceRuns true rest
  end.

Fixpoint dropHyphens (l : list ascii) : list ascii :=
  match l with
  | [] => []
  | c :: rest => if isHyphen c then dropHyphens rest else l
  end.

Definition trimHyphens (l : list ascii) : list ascii :=
  rev (dropHyphens (rev (dropHyphens l))).

Definition truncate (max : positive) (l : list ascii) : list ascii :=
  firstn (Pos.to_nat max) l.

(** Lower-case, hyphenate, trim, truncate. *)
Definition sanitize (max : positive) (text : string) : string :=
  string_of_list_ascii
    (truncate max
       (trimHyphens
          (replaceRuns false (map toLowerChar (list_ascii_of_string text))))).

(** The slug rule of the data model: [[a-z0-9-]+]. *)
Definition slugCharset (s : string) : bool :=
  forallb slugChar (list_ascii_of_string s).

Definition validSlug (s : string) : bool :=
  negb (String.eqb s EmptyString) && slugCharset s.

(** Modelled from the spec: [generateBranchName] of [core/naming.ts] is not
    among the sources. An override is validated against the slug charset
    and used verbatim, truncated when over length. Otherwise the type is the
    task's or the configured default, and the slug is the title lower-cased,
    its non-alphanumeric runs replaced by single hyphens, trimmed of leading
    and trailing hyphens and truncated to the configured maximum; with
    [withTaskId] the task id and a hyphen are then put in front of it, the
    task id as the caller gave it. *)
Definition generateBranchName (cfg : Config) (withTaskId : bool)
    (task : TaskDescriptor) (override : option BranchName.t)
  : Result BranchName.t :=
  match override with
  | Some o =>
      if validSlug (BranchName.slug o) then
        Ok (BranchName.mk (BranchName.type o)
              (string_of_list_ascii
                 (truncate (maxBranchSlugLength cfg)
                    (list_ascii_of_string (BranchName.slug o)))))
      else Throw ("Invalid branch slug: " ++ BranchName.slug o)
  | None =>
      let type :=
        match type task with
        | Some t => t
        | None => defaultBranchType cfg
        end in
      let slug := sanitize (maxBranchSlugLength cfg) (title task) in
      Ok (BranchName.mk type
            (if withTaskId then taskId task ++ "-" ++ slug else slug))
  end.



End Naming.

(** ** The repository as the workspace flow sees it *)

Module Session.
Record t := mk {
  taskId : string;
  taskName : string;
  branch : string;
  worktreePath : string;
  opencodeSessionId : option string;
  createdAt : Z;
  updatedAt : Z
}.
End Session.

(** The content of the persisted file, [{ sessions: Session[] }]. *)
Record SessionState := mkState { sessions : list Session.t }.

(** The session file on disk: absent, not a readable state, or a state. *)
Inductive StateFile :=
| FileMissing
| FileMalformed
| FileState (st : SessionState).

Module Worktree.
Record t := mk { path : string; branch : string; isMain : bool }.
End Worktree.

Inductive Event :=
| HookRan (command cwd : string) (exitCode : Z)
| TerminalOpened (options : OpenSessionOptions)
| TerminalFailed (options : OpenSessionOptions) (reason : string).

(** One repository: its session file, the branches and worktrees git knows,
    the directories on disk below the repository root, the clock, the exit
    code the shell gives a command in a directory, and what hooks and
    terminal have done so far (latest first). *)
Record World := mkWorld {
  stateFile : StateFile;
  branches : list string;
  worktrees : list Worktree.t;
  directories : list string;
  now : Z;
  shell : string -> string -> Z;
  journal : list Event
}.

(** A step that reads and writes the repository and may throw; what it
    wrote before throwing stays written. *)
Definition M (A : Type) : Type := World -> Result A * World.

Definition ret {A} (a : A) : M A := fun w => (Ok a, w).
Definition raise {A} (msg : string) : M A := fun w => (Throw msg, w).
Definition bindM {A B} (m : M A) (k : A -> M B) : M B :=
  fun w => match m w with
           | (Ok a, w') => k a w'
           | (Throw e, w') => (Throw e, w')
           end.
Definition lift {A} (r : Result A) : M A := fun w => (r, w).

Declare Scope world_scope.
Delimit Scope world_scope with world.
Notation "x <- c ;; k" := (bindM c (fun x => k))
  (at level 61, c at next level, right associativity) : world_scope.
Notation "c ;;; k" := (bindM c (fun _ => k))
  (at level 61, right associativity) : world_scope.

Definition strIn (s : string) (l : list string) : bool :=
  existsb (String.eqb s) l.

(** The sessions a load of the state file yields. *)
Definition loadedSessions (w : World) : list Session.t :=
  match stateFile w with
  | FileState st => sessions st
  | FileMissing | FileMalformed => []
  end.

(** The same repository with another journal. *)
Definition withJournal (j : list Event) (w : World) : World :=
  {| stateFile := stateFile w;
     branches := branches w;
     worktrees := worktrees w;
     directories := directories w;
     now := now w;
     shell := shell w;
     journal := j |}.


(** A step that returns and at most adds to the journal. *)
Definition journalOnly (m : M unit) : Prop :=
  forall w, exists j, m w = (Ok tt, withJournal j w).

(** ** Session store *)

Module SessionStore.

Definition emptyState : SessionState := mkState [].

(** Modelled from the spec: [loadState] of [core/session.ts] is not among
    the sources. It reads the JSON file if present, else returns an empty
    state; a malformed or unreadable file is treated as empty. *)
Definition loadState (basePath : string) : M SessionState :=
  fun w => match stateFile w with
           | FileState st => (Ok st, w)
           | FileMissing | FileMalformed => (Ok emptyState, w)
           end.

Definition writeState (basePath : string) (st : SessionState) : M unit :=
  fun w => (Ok tt,
            {| stateFile := FileState st;
               branches := branches w;
               worktrees := worktrees w;
               directories := directories w;
               now := now w;
               shell := shell w;
               journal := journal w |}).

Definition hasTask (taskId : string) (s : Session.t) : bool :=
  String.eqb (Session.taskId s) taskId.

(** Modelled from the spec: [findSessionByTask] of [core/session.ts] is not
    among the sources; the session of the loaded state with this task id. *)
Definition findSessionByTask (basePath taskId : string)
  : M (option Session.t) :=
  (st <- loadState basePath ;;
   ret (find (hasTask taskId) (sessions st)))%world.

(** Replace if present, else append. *)
Definition upsert (session : Session.t) (l : list Session.t)
  : list Session.t :=
  if existsb (hasTask (Session.taskId session)) l
  then map (fun s => if hasTask (Session.taskId session) s
                     then session else s) l
  else (l ++ [session])%list.

(** Modelled from the spec: [saveSession] of [core/session.ts] is not among
    the sources. Read-modify-write: load the full state, upsert by task id,
    write the whole file back. *)
Definition saveSession (basePath : string) (session : Session.t) : M unit :=
  (st <- loadState basePath ;;
   writeState basePath (mkState (upsert session (sessions st))))%world.

(** Modelled from the spec: [removeSession] of [core/session.ts] is not
    among the sources. Read-modify-write removing the matching entry; an
    absent entry is no error. *)
Definition removeSession (basePath taskId : string) : M unit :=
  (st <- loadState basePath ;;
   writeState basePath
     (mkState (filter (fun s => negb (hasTask taskId s)) (sessions st))))%world.

End SessionStore.

(** ** Worktree manager *)

Module WorktreeManager.

(** [branch.replace(/\//g, "-")] *)
Fixpoint slashesToDashes (s : string) : string :=
  match s with
  | EmptyString => EmptyString
  | String c rest =>
      String (if Ascii.eqb c "/" then "-"%char else c) (slashesToDashes rest)
  end.

(** The directory of a branch, [basePath/worktreesDir/<branch with "/"
    replaced by "-">]. *)
Definition worktreePathFor (cfg : Config) (branch basePath : string) : string :=
  Path.join [basePath; worktreesDir cfg; slashesToDashes branch].

Definition pathExists (p : string) (w : World) : bool :=
  strIn p (directories w).

(** Modelled from the spec: [createWorktree] of [core/worktree.ts] is not
    among the sources. It computes the target path, creates the worktree
    with a new branch off [baseBranch], and fails with a
    [WorktreeCreationError] if the path already exists, the branch is
    already in use or the base branch is unknown. *)
Definition createWorktree (cfg : Config) (branch baseBranch basePath : string)
  : M string :=
  fun w =>
    let target := worktreePathFor cfg branch basePath in
    if pathExists target w then
      (Throw ("WorktreeCreationError: path already exists: " ++ target), w)
    else if strIn branch (branches w) then
      (Throw ("WorktreeCreationError: branch already exists: " ++ branch), w)
    else if negb (strIn baseBranch (branches w)) then
      (Throw ("WorktreeCreationError: unknown base branch: " ++ baseBranch), w)
    else
      (Ok target,
       {| stateFile := stateFile w;
          branches := (branches w ++ [branch])%list;
          worktrees := (worktrees w ++ [Worktree.mk target branch false])%list;
          directories := target :: directories w;
          now := now w;
          shell := shell w;
          journal := journal w |}).

(** Modelled from the spec: [worktreeExists] of [core/worktree.ts] is not
    among the sources; it lists the worktrees and checks branch
    membership. *)
Definition worktreeExists (branch basePath : string) : M bool :=
  fun w =>
    (Ok (existsb (fun t => String.eqb (Worktree.branch t) branch) (worktrees w)),
     w).

Definition isLinkedAt (p : string) (t : Worktree.t) : bool :=
  String.eqb (Worktree.path t) p && negb (Worktree.isMain t).

(** Modelled from the spec: [removeWorktree] of [core/worktree.ts] is not
    among the sources. It removes the worktree entry (and its directory)
    and does not touch the session store; git refuses a path that is no
    linked worktree. *)
Definition removeWorktree (p : string) (force : bool) (basePath : string)
  : M unit :=
  fun w =>
    if existsb (isLinkedAt p) (worktrees w) then
      (Ok tt,
       {| stateFile := stateFile w;
          branches := branches w;
          worktrees := filter (fun t => negb (isLinkedAt p t)) (worktrees w);
          directories :=
            filter (fun d => negb (String.eqb d p)) (directories w);
          now := now w;
          shell := shell w;
          journal := journal w |})
    else (Throw ("ProcessError: not a working tree: " ++ p), w).

End WorktreeManager.

(** ** Hook runner and terminal *)

Module Hooks.

Definition record (e : Event) : M unit :=
  fun w => (Ok tt,
            {| stateFile := stateFile w;
               branches := branches w;
               worktrees := worktrees w;
               directories := directories w;
               now := now w;
               shell := shell w;
               journal := e :: journal w |}).

(** Modelled from the spec: [runHooks] of [core/hooks.ts] is not among the
    sources. Each command runs in order inside [cwd]; a non-zero exit is
    recorded and the next hook still runs. *)
Fixpoint runHooks (commands : list string) (cwd : string) : M unit :=
  match commands with
  | [] => ret tt
  | command :: rest =>
      (fun w => record (HookRan command cwd (shell w command cwd)) w) ;;;
      runHooks rest cwd
  end%world.

(** Opening the terminal never fails the flow: an unavailable adapter or a
    throwing [openSession] is recorded only. *)
Definition openTerminal (adapter : option TerminalAdapter)
    (options : OpenSessionOptions) : M unit :=
  match adapter with
  | None => ret tt
  | Some t =>
      if isAvailable t then
        match openSession t options with
        | Ok _ => record (TerminalOpened options)
        | Throw reason => record (TerminalFailed options reason)
        end
      else record (TerminalFailed options "TerminalUnavailableError")
  end.

End Hooks.

(** ** Workspace orchestrator *)

Module Orchestrator.

Record CreateWorkspaceInput := mkInput {
  taskId : string;
  title : string;
  description : option string;
  priority : option Naming.Priority;
  type : option BranchType;
  branchType : option BranchType;
  branchSlug : option string;
  baseBranch : option string
}.

Record Options := mkOptions {
  opencodeSessionId : option string;
  terminal : option TerminalAdapter;
  openTerminal : bool;
  runHooks : bool
}.

Definition taskOf (input : CreateWorkspaceInput) : Naming.TaskDescriptor :=
  {| Naming.taskId := taskId input;
     Naming.title := title input;
     Naming.description := description input;
     Naming.priority := priority input;
     Naming.type := type input |}.

(** A task descriptor as an input, nothing else supplied. *)
Definition inputOf (task : Naming.TaskDescriptor) : CreateWorkspaceInput :=
  {| taskId := Naming.taskId task;
     title := Naming.title task;
     description := Naming.description task;
     priority := Naming.priority task;
     type := Naming.type task;
     branchType := None;
     branchSlug := None;
     baseBranch := None |}.

(** [branchType && branchSlug ? { type, slug } : undefined] *)
Definition overrideOf (input : CreateWorkspaceInput)
  : option Naming.BranchName.t :=
  match branchType input, branchSlug input with
  | Some t, Some s =>
      if String.eqb s EmptyString then None else Some (Naming.BranchName.mk t s)
  | _, _ => None
  end.

Definition clock : M Z := fun w => (Ok (now w), w).

Definition when (b : bool) (m : M unit) : M unit := if b then m else ret tt.

Definition terminalOptions (input : CreateWorkspaceInput) (cwd : string)
  : OpenSessionOptions :=
  {| sessionCwd := cwd; sessionTitle := title input; sessionCommand := None |}.

Section Flow.

Variable defaultHooks : HooksConfig.

Definition afterCreateCommands (cfg : Config) : list string :=
  match afterCreate (getHooksConfig defaultHooks cfg) with
  | Some commands => commands
  | None => []
  end.

(** The session a resume writes back: the session id of the call, when
    there is one, and a new [updatedAt]. *)
Definition refreshed (options : Options) (t : Z) (s : Session.t)
  : Session.t :=
  {| Session.taskId := Session.taskId s;
     Session.taskName := Session.taskName s;
     Session.branch := Session.branch s;
     Session.worktreePath := Session.worktreePath s;
     Session.opencodeSessionId :=
       match opencodeSessionId options with
       | Some id => Some id
       | None => Session.opencodeSessionId s
       end;
     Session.createdAt := Session.createdAt s;
     Session.updatedAt := t |}.

(** Step 2 of the algorithm: the session is found and its worktree is
    still listed. The session id and [updatedAt] are refreshed, the
    terminal is opened if enabled, the create-time hooks do not run. *)
Definition resume (input : CreateWorkspaceInput) (basePath : string)
    (options : Options) (s : Session.t) : M WorkspaceResult :=
  (t <- clock ;;
   let s' := refreshed options t s in
   SessionStore.saveSession basePath s' ;;;
   when (openTerminal options)
     (Hooks.openTerminal (terminal options)
        (terminalOptions input (Session.worktreePath s))) ;;;
   ret {| status := existing;
          Workspace.taskId := taskId input;
          taskName := Some (Session.taskName s);
          branch := Some (Session.branch s);
          worktreePath := Some (Session.worktreePath s);
          Workspace.opencodeSessionId := Session.opencodeSessionId s';
          message := None |})%world.

(** The session a creation persists. *)
Definition newSession (input : CreateWorkspaceInput) (options : Options)
    (branch path : string) (t : Z) : Session.t :=
  {| Session.taskId := taskId input;
     Session.taskName := title input;
     Session.branch := branch;
     Session.worktreePath := path;
     Session.opencodeSessionId := opencodeSessionId options;
     Session.createdAt := t;
     Session.updatedAt := t |}.

(** Step 3: name the branch, create the worktree off the base branch,
    persist the session, run the [afterCreate] hooks if enabled, open the
    terminal if enabled. *)
Definition createNew (cfg : Config) (input : CreateWorkspaceInput)
    (basePath : string) (options : Options) : M WorkspaceResult :=
  (branchName <-
     lift (Naming.generateBranchName cfg true (taskOf input)
             (overrideOf input)) ;;
   let branch := Naming.branchString branchName in
   let base := optStrOr (baseBranch input) (defaultBaseBranch cfg) in
   path <- WorktreeManager.createWorktree cfg branch base basePath ;;
   t <- clock ;;
   SessionStore.saveSession basePath
     (newSession input options branch path t) ;;;
   when (runHooks options) (Hooks.runHooks (afterCreateCommands cfg) path) ;;;
   when (openTerminal options)
     (Hooks.openTerminal (terminal options) (terminalOptions input path)) ;;;
   ret {| status := created;
          Workspace.taskId := taskId input;
          taskName := Some (title input);
          branch := Some branch;
          worktreePath := Some path;
          Workspace.opencodeSessionId := opencodeSessionId options;
          message := None |})%world.

(** Steps 1 to 3. *)
Definition run (cfg : Config) (input : CreateWorkspaceInput)
    (basePath : string) (options : Options) : M WorkspaceResult :=
  (found <- SessionStore.findSessionByTask basePath (taskId input) ;;
   match found with
   | Some s =>
       listed <- WorktreeManager.worktreeExists (Session.branch s) basePath ;;
       if (listed : bool) then resume input basePath options s
       else createNew cfg input basePath options
   | None => createNew cfg input basePath options
   end)%world.

(** Modelled from the spec: [createWorkspace] of
    [tools/create-workspace.ts] is not among the sources. It runs the
    create-or-resume algorithm and turns any failure into a result with
    status [failed] and the message; effects before the failure stay. *)
Definition createWorkspace (cfg : Config) (input : CreateWorkspaceInput)
    (basePath : string) (options : Options) (w : World)
  : WorkspaceResult * World :=
  match run cfg input basePath options w with
  | (Ok result, w') => (result, w')
  | (Throw msg, w') =>
      ({| status := failed;
          Workspace.taskId := taskId input;
          taskName := None;
          branch := None;
          worktreePath := None;
          Workspace.opencodeSessionId := None;
          message := Some msg |}, w')
  end.

End Flow.

(** The repository after a creation, up to the journal. *)
Definition afterCreation (input : CreateWorkspaceInput) (options : Options)
    (branch path : string) (j : list Event) (w : World) : World :=
  {| stateFile :=
       FileState
         (mkState (SessionStore.upsert
                     (newSession input options branch path (now w))
                     (loadedSessions w)));
     branches := (branches w ++ [branch])%list;
     worktrees := (worktrees w ++ [Worktree.mk path branch false])%list;
     directories := path :: directories w;
     now := now w;
     shell := shell w;
     journal := j |}.

(** The result of a creation. *)
Definition createdResult (input : CreateWorkspaceInput) (options : Options)
    (branch path : string) : WorkspaceResult :=
  {| status := created;
     Workspace.taskId := taskId input;
     taskName := Some (title input);
     Workspace.branch := Some branch;
     worktreePath := Some path;
     Workspace.opencodeSessionId := opencodeSessionId options;
     message := None |}.

(** A fresh repository at [basePath]: one branch [main] checked out in the
    main worktree, nothing else on disk, no session file. *)
Definition freshRepository (basePath : string) (t : Z)
    (sh : string -> string -> Z) : World :=
  {| stateFile := FileMissing;
     branches := ["main"];
     worktrees := [Worktree.mk basePath "main" true];
     directories := [];
     now := t;
     shell := sh;
     journal := [] |}.

End Orchestrator.

(** ** The precedence of configuration sources, as the specification words it *)

Module Precedence.

(** The [transmute] section a module exposes: the section of its default
    export when that is truthy, of the module itself otherwise. *)
Definition transmuteSection (module : value) : option value :=
  match module with
  | VObj m =>
      let exported := getProp "default" m in
      match (if truthy exported then exported else module) with
      | VObj f =>
          if hasProp "transmute" f then Some (getProp "transmute" f) else None
      | _ => None
      end
  | _ => None
  end.

(** The repository has an [opencode.config.ts] that can be imported and
    exposes the section [t]. *)
Definition exposesTransmute (rt : Runtime) (basePath : string) (t : value)
  : Prop :=
  let configPath := Path.join [basePath; "opencode.config.ts"] in
  access rt configPath = true /\
  exists module,
    importModule rt (Path.resolve (cwd rt) [configPath]) = Ok module /\
    transmuteSection module = Some t.

(** None of the three configuration files is there. *)
Definition noSource (rt : Runtime) (basePath : string) : Prop :=
  access rt (Path.join [basePath; "opencode.config.ts"]) = false /\
  access rt (Path.join [basePath; ".opencode/transmute.config.json"]) = false /\
  access rt (Path.join [basePath; "transmute.config.json"]) = false.

Section Levels.

Variable defaultHooks : HooksConfig.
Variable JSON_parse : string -> Result value.

(** (a) the structured module: present, importable, exposing a section
    that validates. *)
Definition moduleLevel (rt : Runtime) (basePath : string)
  : option LoadConfigResult :=
  let configPath := Path.join [basePath; "opencode.config.ts"] in
  if access rt configPath then
    match importModule rt (Path.resolve (cwd rt) [configPath]) with
    | Ok module =>
        match transmuteSection module with
        | Some t =>
            match configSchema defaultHooks t with
            | Ok c => Some (mkLoadConfigResult c SourceOpencodeConfig
                              (Some configPath))
            | Throw _ => None
            end
        | None => None
        end
    | Throw _ => None
    end
  else None.

(** (b) the JSON file at the first of the two locations that exists:
    readable, parsable, valid. *)
Definition jsonLevel (rt : Runtime) (basePath : string)
  : option LoadConfigResult :=
  let first := Path.join [basePath; ".opencode/transmute.config.json"] in
  let second := Path.join [basePath; "transmute.config.json"] in
  let found := if access rt first then Some first
               else if access rt second then Some second else None in
  match found with
  | Some p =>
      match readFile rt p with
      | Ok text =>
          match JSON_parse text with
          | Ok v =>
              match configSchema defaultHooks v with
              | Ok c => Some (mkLoadConfigResult c SourceJson (Some p))
              | Throw _ => None
              end
          | Throw _ => None
          end
      | Throw _ => None
      end
  | None => None
  end.

(** (c) the built-in defaults. *)
Definition defaultsLevel : LoadConfigResult :=
  mkLoadConfigResult (defaultConfig defaultHooks) SourceDefault None.

(** The first level, in order, that yields a configuration. *)
Definition firstAvailable (rt : Runtime) (basePath : string)
  : LoadConfigResult :=
  match moduleLevel rt basePath with
  | Some r => r
  | None =>
      match jsonLevel rt basePath with
      | Some r => r
      | None => defaultsLevel
      end
  end.

End Levels.

End Precedence.

(** ** Concrete repositories used in the examples *)

Module Examples.

Definition someHooks : HooksConfig :=
  {| afterCreate := Some ["[ -f package.json ] && pnpm install || true"];
     beforeDestroy := None |}.

(** The text of a JSON file setting [worktreesDir] to [./custom]. *)
Definition quote : string := String (ascii_of_nat 34) EmptyString.

Definition customJsonText : string :=
  "{" ++ quote ++ "worktreesDir" ++ quote ++ ": "
      ++ quote ++ "./custom" ++ quote ++ "}".

(** [JSON.parse] on the texts of the examples. *)
Definition parseExamples (text : string) : Result value :=
  if String.eqb text customJsonText
  then Ok (VObj [("worktreesDir", VStr "./custom")])
  else if String.eqb text "{}" then Ok (VObj [])
  else Throw "SyntaxError: Unexpected token".

Definition enoent {A} (p : string) : Result A :=
  Throw ("ENOENT: no such file or directory, open " ++ p).

(** A repository at [/repo] whose [opencode.config.ts] exports a
    [transmute] section with the given content, next to a JSON file at the
    first location. *)
Definition repoWithBoth (section : value) : Runtime :=
  {| cwd := "/repo";
     access := fun p =>
       String.eqb p "/repo/opencode.config.ts"
       || String.eqb p "/repo/.opencode/transmute.config.json";
     readFile := fun p =>
       if String.eqb p "/repo/.opencode/transmute.config.json"
       then Ok customJsonText else enoent p;
     importModule := fun p =>
       if String.eqb p "/repo/opencode.config.ts"
       then Ok (VObj [("default", VObj [("transmute", section)])])
       else Throw "ERR_MODULE_NOT_FOUND" |}.

(** A repository at [/repo] with both JSON files, the first one holding
    text that is no JSON, the second one the custom directory. *)
Definition repoWithBrokenFirstJson : Runtime :=
  {| cwd := "/repo";
     access := fun p =>
       String.eqb p "/repo/.opencode/transmute.config.json"
       || String.eqb p "/repo/transmute.config.json";
     readFile := fun p =>
       if String.eqb p "/repo/.opencode/transmute.config.json"
       then Ok "invalid json {{{"
       else if String.eqb p "/repo/transmute.config.json"
       then Ok customJsonText else enoent p;
     importModule := fun _ => Throw "ERR_MODULE_NOT_FOUND" |}.

(** A section that sets the terminal to [kitty]. *)
Definition kittySection : value := VObj [("terminal", VStr "kitty")].

(** A section whose terminal is none of the four the schema accepts. *)
Definition invalidSection : value := VObj [("terminal", VStr "invalid")].

(** The defaults with another hooks section. *)
Definition withHooks (h : HooksConfig) : Config :=
  mkConfig "./worktrees" Feat 40 h Wezterm true true "main" true.

(** A repository at [/repo] without any configuration file. *)
Definition repoWithoutConfig : Runtime :=
  {| cwd := "/repo";
     access := fun _ => false;
     readFile := fun p => enoent p;
     importModule := fun _ => Throw "ERR_MODULE_NOT_FOUND" |}.

(** A terminal adapter that opens every session. *)
Definition anAdapter : TerminalAdapter :=
  {| name := "WezTerm"; isAvailable := true; openSession := fun _ => Ok tt |}.

(** The arguments of a [start-task] call. *)
Definition someArgs : Plugin.StartTaskInput :=
  {| Plugin.taskId := "task-1";
     Plugin.title := "Integration Test Task";
     Plugin.description := None;
     Plugin.priority := None;
     Plugin.type := None;
     Plugin.baseBranch := None |}.

(** A [startTask] that reports a failure as a result. *)
Definition failingStartTask (input : Plugin.StartTaskInput) (basePath : string)
    (options : Plugin.StartTaskOptions unit) : Result WorkspaceResult :=
  Ok {| status := failed;
        Workspace.taskId := Plugin.taskId input;
        taskName := None;
        branch := None;
        worktreePath := None;
        Workspace.opencodeSessionId := None;
        message := Some "WorktreeCreationError: unknown base branch" |}.

(** A serialiser that shows the [status] and [message] of an object. *)
Definition showStatus (v : value) : string :=
  match v with
  | VObj f =>
      match getProp "status" f, getProp "message" f with
      | VStr s, VStr m => s ++ ": " ++ m
      | _, _ => EmptyString
      end
  | _ => EmptyString
  end.

(** The input of scenario A. *)
Definition scenarioA : Orchestrator.CreateWorkspaceInput :=
  {| Orchestrator.taskId := "task-1";
     Orchestrator.title := "Integration Test Task";
     Orchestrator.description := Some "Testing the full flow";
     Orchestrator.priority := Some Naming.high;
     Orchestrator.type := None;
     Orchestrator.branchType := None;
     Orchestrator.branchSlug := None;
     Orchestrator.baseBranch := None |}.

(** The input and options of the cleanup scenario. *)
Definition cleanupTask : Naming.TaskDescriptor :=
  Naming.mkTask "task-3" "Cleanup Task" None None None.




Definition cleanupOptions : Orchestrator.Options :=
  {| Orchestrator.opencodeSessionId := Some "session-789";
     Orchestrator.terminal := None;
     Orchestrator.openTerminal := false;
     Orchestrator.runHooks := false |}.

(** A shell in which every command succeeds. *)
Definition quietShell (command cwd : string) : Z := 0%Z.

End Examples.

(** ** Configurations as JavaScript objects *)

(** The nine keys the schema reads. *)
Definition configKeys : list string :=
  ["worktreesDir"; "defaultBranchType"; "maxBranchSlugLength"; "hooks";
   "terminal"; "autoOpenTerminal"; "autoRunHooks"; "defaultBaseBranch";
   "useAiBranchNaming"].

(** A [Config] as the object it is in JavaScript. *)
Definition configValue (c : Config) : value :=
  VObj [("worktreesDir", VStr (worktreesDir c));
        ("defaultBranchType", VStr (branchTypeName (defaultBranchType c)));
        ("maxBranchSlugLength", VNum (Zpos (maxBranchSlugLength c) # 1));
        ("hooks", hooksValue (hooks c));
        ("terminal", VStr (terminalTypeName (terminal c)));
        ("autoOpenTerminal", VBool (autoOpenTerminal c));
        ("autoRunHooks", VBool (autoRunHooks c));
        ("defaultBaseBranch", VStr (defaultBaseBranch c));
        ("useAiBranchNaming", VBool (useAiBranchNaming c))].

(** Two objects hold the same values under the nine keys. *)
Definition sameConfigKeys (f f' : list (string * value)) : Prop :=
  forall key, In key configKeys -> getProp key f = getProp key f'.

(** A number that is a positive integer. *)
Definition positiveInteger (q : Q) : Prop :=
  exists n : positive, Qeq q (Zpos n # 1).

(** What the schema refuses under a key it reads: [null] under any key, a
    terminal or branch type outside the enumerations, a slug length that is
    no positive integer. *)
Definition refusedField (f : list (string * value)) : Prop :=
  (exists key, In key configKeys /\ getProp key f = VNull)
  \/ (exists s, getProp "terminal" f = VStr s
                /\ forall t, terminalTypeName t <> s)
  \/ (exists s, getProp "defaultBranchType" f = VStr s
                /\ forall t, branchTypeName t <> s)
  \/ (exists q, getProp "maxBranchSlugLength" f = VNum q
                /\ ~ positiveInteger q).

(** ** Registration of the plugin ([TransmutePlugin], with configuration) *)

Module Registration.

Section Init.

Variable OpenCodeClient : Type.
Variable createWezTermAdapter : TerminalAdapter.
Variable defaultHooks : HooksConfig.
Variable JSON_parse : string -> Result value.

(** [getGitRoot()] of [core/exec.ts], throwing outside a repository. *)
Variable getGitRoot : Result string.

(** What the plugin function resolves to: the empty object, or the
    [start-task] tool with what its [execute] closes over. *)
Inductive PluginHooks :=
| NoTools
| StartTaskTool (env : Plugin.Closure OpenCodeClient).

(** The [try] block of the plugin function: the repository root and the
    loaded configuration. *)
Definition initialize (rt : Runtime) : Result (string * LoadConfigResult) :=
  (basePath <- getGitRoot ;;
   loadResult <- loadConfig defaultHooks JSON_parse rt basePath ;;
   Ok (basePath, loadResult))%result.

(** [TransmutePlugin(ctx)]: a failed initialisation returns the empty
    object, otherwise adapter and hooks are derived from the configuration
    and the tool is registered. *)
Definition TransmutePlugin (client : OpenCodeClient) (rt : Runtime)
  : Result PluginHooks :=
  (initialized <-
     tryCatch
       (r <- initialize rt ;; Ok (Some r))
       (fun _ => Ok None) ;;
   match initialized with
   | None => Ok NoTools
   | Some (basePath, loadResult) =>
       let terminal :=
         Plugin.createTerminalAdapter createWezTermAdapter
           (config loadResult) in
       let hooks := getHooksConfig defaultHooks (config loadResult) in
       Ok (StartTaskTool
             {| Plugin.ctxClient := client;
                Plugin.basePath := basePath;
                Plugin.config := config loadResult;
                Plugin.source := source loadResult;
                Plugin.adapter := terminal;
                Plugin.resolvedHooks := hooks |})
   end)%result.

End Init.

End Registration.

(** ** Further concrete inputs used in the examples *)

Module MoreExamples.

(** The partial configuration of the schema tests. *)
Definition partialObject : list (string * value) :=
  [("worktreesDir", VStr "./custom-worktrees"); ("terminal", VStr "tmux")].

Definition partialConfig : Config :=
  mkConfig "./custom-worktrees" Feat 40 Examples.someHooks Tmux true true
    "main" true.

(** The same with a key the schema does not know in front. *)
Definition annotatedObject : list (string * value) :=
  ("$schema", VStr "https://example.test/transmute.json") :: partialObject.

(** An object whose terminal is none of the four. *)
Definition invalidTerminalObject : list (string * value) :=
  [("terminal", VStr "invalid")].

End MoreExamples.

(** What [loadConfigFromOpencodeConfig] yields, in the words of the
    precedence levels: the section of the importable module, [undefined]
    in every other case. *)
Definition sectionOrUndefined (rt : Runtime) (basePath : string) : value :=
  let configPath := Path.join [basePath; "opencode.config.ts"] in
  if access rt configPath then
    match importModule rt (Path.resolve (cwd rt) [configPath]) with
    | Ok module =>
        match Precedence.transmuteSection module with
        | Some t => t
        | None => VUndefined
        end
    | Throw _ => VUndefined
    end
  else VUndefined.

Module MoreExamples2.

(** A repository at [/repo] whose module has a default export without a
    [transmute] key and a named export [transmute]. *)
Definition repoWithNamedExport : Runtime :=
  {| cwd := "/repo";
     access := fun p => String.eqb p "/repo/opencode.config.ts";
     readFile := fun p => Examples.enoent p;
     importModule := fun p =>
       if String.eqb p "/repo/opencode.config.ts"
       then Ok (VObj [("default", VObj [("theme", VStr "dark")]);
                      ("transmute", Examples.kittySection)])
       else Throw "ERR_MODULE_NOT_FOUND" |}.

End MoreExamples2.


Module MoreExamples3.

(** The same repository seen from a process started elsewhere. *)
Definition startedElsewhere : Runtime :=
  {| cwd := "/home/user";
     access := fun _ => false;
     readFile := fun p => Examples.enoent p;
     importModule := fun _ => Throw "ERR_MODULE_NOT_FOUND" |}.

(** The default configuration with the directory written without [./]. *)
Definition plainDirectory : Config :=
  mkConfig "worktrees" Feat 40 Examples.someHooks Wezterm true true "main"
    true.

End MoreExamples3.

(** ** Task documents of the web application ([lib/markdown.ts]) *)

Module Markdown.

Inductive TaskStatus := Todo | InProgress | Done | Blocked.

Inductive TaskPriority := Low | Medium | High | Critical.

Record Subtask := mkSubtask {
  subtaskTitle : string;
  subtaskDescription : option string;
  completed : bool;
  subtaskComments : list string
}.

Record Task := mkTask {
  id : string;
  title : string;
  status : TaskStatus;
  priority : TaskPriority;
  description : string;
  dueDate : option string;
  dependencies : list string;
  subtasks : list Subtask;
  comments : list string
}.

(** *** A JavaScript [Map] with string keys

    The entries in insertion order, no key twice. *)
Definition TaskMap := list (string * Task).

Definition keyIs (k : string) (e : string * Task) : bool :=
  String.eqb (fst e) k.

(** [map.get(k)] *)
Definition mapGet (k : string) (m : TaskMap) : option Task :=
  match find (keyIs k) m with
  | Some e => Some (snd e)
  | None => None
  end.

(** [map.set(k, v)]: a known key keeps its place and takes the value, a new
    key goes to the end. *)
Definition mapSet (k : string) (v : Task) (m : TaskMap) : TaskMap :=
  if existsb (keyIs k) m
  then map (fun e => if keyIs k e then (k, v) else e) m
  else (m ++ [(k, v)])%list.

(** [map.delete(k)] *)
Definition mapDelete (k : string) (m : TaskMap) : TaskMap :=
  filter (fun e => negb (keyIs k e)) m.

(** [new Map(entries)] *)
Definition mapOf (entries : list (string * Task)) : TaskMap :=
  fold_left (fun m e => mapSet (fst e) (snd e) m) entries [].

(** [Array.from(map.values())] *)
Definition mapValues (m : TaskMap) : list Task := map snd m.

(** The keys of a map in their order. *)
Definition keys (m : TaskMap) : list string := map fst m.

(** Every task sits under its own id. *)
Definition keyed (m : TaskMap) : Prop :=
  forall e, In e m -> fst e = id (snd e).

(** One round of the first loop: a known id moves its task from the map to
    the new list, an unknown id does nothing. *)
Definition takeOrdered (acc : list Task * TaskMap) (taskId : string)
  : list Task * TaskMap :=
  match mapGet taskId (snd acc) with
  | Some task => ((fst acc ++ [task])%list, mapDelete taskId (snd acc))
  | None => acc
  end.

(** [new Map(allTasks.map(t => [t.id, t]))] *)
Definition taskMapOf (allTasks : list Task) : TaskMap :=
  mapOf (map (fun t => (id t, t)) allTasks).

(** The reordering of [updateProjectTasksOrder]: the tasks named in
    [orderedTaskIds] in that order, then the tasks left in the map. *)
Definition reorderTasks (allTasks : list Task) (orderedTaskIds : list string)
  : list Task :=
  let taskMap := taskMapOf allTasks in
  let '(newTasks, remaining) :=
    fold_left takeOrdered orderedTaskIds ([], taskMap) in
  (newTasks ++ mapValues remaining)%list.

(** The counters of [getAllProjects]. *)
Record TaskStats := mkStats {
  total : nat;
  done : nat;
  inProgress : nat;
  todo : nat;
  blocked : nat
}.

Definition statusIs (s : TaskStatus) (t : Task) : bool :=
  match status t, s with
  | Todo, Todo | InProgress, InProgress | Done, Done | Blocked, Blocked => true
  | _, _ => false
  end.

Definition taskStats (items : list Task) : TaskStats :=
  {| total := List.length items;
     done := List.length (filter (statusIs Done) items);
     inProgress := List.length (filter (statusIs InProgress) items);
     todo := List.length (filter (statusIs Todo) items);
     blocked := List.length (filter (statusIs Blocked) items) |}.

(** The ids of a request that name a task, each at its first occurrence:
    what the first loop takes out of a map with the keys [known]. *)
Fixpoint requested (known : list string) (orderedTaskIds : list string)
  : list string :=
  match orderedTaskIds with
  | [] => []
  | x :: rest =>
      if strIn x known
      then x :: requested (filter (fun k => negb (String.eqb k x)) known) rest
      else requested known rest
  end.

(** [t] is the last task of [allTasks] with its id. *)
Definition lastWithId (allTasks : list Task) (t : Task) : Prop :=
  exists before after,
    allTasks = (before ++ t :: after)%list
    /\ forall u, In u after -> id u <> id t.

End Markdown.

Module TaskExamples.

Import Markdown.

Definition aTask (taskId : string) (name : string) (s : TaskStatus) : Task :=
  {| id := taskId; title := name; status := s; priority := Medium;
     description := EmptyString; dueDate := None; dependencies := [];
     subtasks := []; comments := [] |}.

(** Three tasks with ids of their own. *)
Definition threeTasks : list Task :=
  [aTask "task-1" "Design" Done;
   aTask "task-2" "Build" InProgress;
   aTask "task-3" "Ship" Todo].

(** A document in which the id [task-1] is used twice. *)
Definition repeatedId : list Task :=
  [aTask "task-1" "Design" Done;
   aTask "task-2" "Build" InProgress;
   aTask "task-1" "Ship" Todo].

End TaskExamples.

(** * Properties of the configuration *)

Section ConfigurationFacts.

Variable defaultHooks : HooksConfig.
Variable JSON_parse : string -> Result value.

Lemma stringItems_strings (what : string) (l : list string) :
  Zod.stringItems what (map VStr l) = Ok l.
Proof.
  induction l as [|s l IH]; simpl.
  - reflexivity.
  - rewrite IH. reflexivity.
Qed.

(** A hooks value read back through its schema is unchanged: a default
    that is handed to the inner schema comes out as it is. *)
Lemma hooksConfigSchema_hooksValue (h : HooksConfig) :
  hooksConfigSchema (hooksValue h) = Ok h.
Proof.
  destruct h as [[a|] [b|]]; simpl; rewrite ?stringItems_strings; reflexivity.
Qed.

Lemma getProp_dropKey (k k' : string) (f : list (string * value)) :
  getProp k' (dropKey k f)
  = if String.eqb k k' then VUndefined else getProp k' f.
Proof.
  induction f as [|[k0 v] f IH]; simpl.
  - destruct (String.eqb k k'); reflexivity.
  - destruct (String.eqb_spec k0 k) as [->|Hk]; simpl.
    + rewrite IH. destruct (String.eqb k k'); reflexivity.
    + rewrite IH. destruct (String.eqb_spec k0 k') as [->|Hk'].
      * destruct (String.eqb_spec k k') as [->|_]; [contradiction|reflexivity].
      * reflexivity.
Qed.

Lemma default_without {A} (schema : value -> Result A) (d x : A) (v : value)
    (absent : bool) :
  Zod.default schema d v = Ok x ->
  exists x', Zod.default schema d (if absent then VUndefined else v) = Ok x'.
Proof.
  intros H. destruct absent; [exists d; reflexivity | exists x; exact H].
Qed.

(** No field is required: an object that validates still validates when
    any one of its keys is taken away. *)
Lemma configSchema_no_field_required (k : string) (f : list (string * value))
    (c : Config) :
  configSchema defaultHooks (VObj f) = Ok c ->
  exists c', configSchema defaultHooks (VObj (dropKey k f)) = Ok c'.
Proof.
  unfold configSchema. rewrite !getProp_dropKey. intros H.
  repeat match type of H with
         | context [bind (Zod.default ?s ?d ?v) _] =>
             let E := fresh "E" in
             destruct (Zod.default s d v) eqn:E; cbn [bind] in H;
             [|discriminate]
         end.
  repeat match goal with
         | E : Zod.default ?s ?d ?v = Ok _
           |- context [Zod.default ?s ?d (if ?b then VUndefined else ?v)] =>
             let x := fresh "x" in
             destruct (@default_without _ s d _ v b E) as [x ->]; clear E;
             cbn [bind]
         end.
  eexists. reflexivity.
Qed.

(** Only objects validate. *)
Lemma configSchema_object (v : value) (c : Config) :
  configSchema defaultHooks v = Ok c -> exists f, v = VObj f.
Proof.
  destruct v; simpl; try discriminate. intros _. eexists; reflexivity.
Qed.

Lemma configSchema_truthy (v : value) (c : Config) :
  configSchema defaultHooks v = Ok c -> truthy v = true.
Proof.
  intros H. destruct (configSchema_object _ H) as [f ->]. reflexivity.
Qed.

(** The first [try] block of [loadConfig] computes level (a). *)
Lemma tryOpencodeConfig_level (rt : Runtime) (basePath : string) :
  tryOpencodeConfig defaultHooks rt basePath
  = Ok (Precedence.moduleLevel defaultHooks rt basePath).
Proof.
  unfold tryOpencodeConfig, loadConfigFromOpencodeConfig,
    Precedence.moduleLevel, fileExists, mergeConfig.
  destruct (access rt _); simpl; [|reflexivity].
  destruct (importModule rt _) as [module|e]; simpl; [|reflexivity].
  destruct module as [| |b|q|s|items|m]; simpl; try reflexivity.
  all: try (match goal with
            | |- context [Qeq_bool ?q 0] => destruct (Qeq_bool q 0)
            | |- context [String.eqb ?s EmptyString] =>
                destruct (String.eqb s EmptyString)
            end; reflexivity).
  - destruct b; reflexivity.
  - set (config := if truthy (getProp "default" m)
                   then getProp "default" m else VObj m).
    assert (Hc : truthy config = true).
    { unfold config. destruct (truthy (getProp "default" m)) eqn:E; auto. }
    destruct config as [| |b|q|s|items|f]; simpl in Hc |- *;
      try discriminate; try (rewrite Hc; reflexivity); try reflexivity.
    destruct (hasProp "transmute" f); cbn [tryCatch bind]; [|reflexivity].
    destruct (configSchema defaultHooks (getProp "transmute" f)) as [c|e] eqn:E.
    + rewrite (configSchema_truthy _ E). reflexivity.
    + destruct (truthy (getProp "transmute" f)); reflexivity.
Qed.

(** The second step of [loadConfig] computes level (b). *)
Lemma tryJsonConfig_level (rt : Runtime) (basePath : string) :
  tryJsonConfig defaultHooks JSON_parse rt basePath
  = Ok (Precedence.jsonLevel defaultHooks JSON_parse rt basePath).
Proof.
  unfold tryJsonConfig, findConfigFile, Precedence.jsonLevel, CONFIG_FILES,
    loadConfigFromFile, mergeConfig, fileExists.
  simpl findConfigFileIn. unfold fileExists.
  destruct (access rt (Path.join [basePath; ".opencode/transmute.config.json"])).
  - destruct (readFile rt _) as [text|e]; simpl; [|reflexivity].
    destruct (JSON_parse text) as [v|e]; simpl; [|reflexivity].
    destruct (configSchema defaultHooks v); reflexivity.
  - destruct (access rt (Path.join [basePath; "transmute.config.json"]));
      [|reflexivity].
    destruct (readFile rt _) as [text|e]; simpl; [|reflexivity].
    destruct (JSON_parse text) as [v|e]; simpl; [|reflexivity].
    destruct (configSchema defaultHooks v); reflexivity.
Qed.

(** [loadConfig] returns what the first available level yields. *)
Lemma loadConfig_levels (rt : Runtime) (basePath : string) :
  loadConfig defaultHooks JSON_parse rt basePath
  = Ok (Precedence.firstAvailable defaultHooks JSON_parse rt basePath).
Proof.
  unfold loadConfig, Precedence.firstAvailable.
  rewrite tryOpencodeConfig_level. simpl.
  destruct (Precedence.moduleLevel defaultHooks rt basePath); [reflexivity|].
  rewrite tryJsonConfig_level. simpl.
  destruct (Precedence.jsonLevel defaultHooks JSON_parse rt basePath);
    reflexivity.
Qed.

Lemma noLength_emptyOrAbsent (l : option (list string)) :
  noLength l = true <-> emptyOrAbsent l.
Proof.
  unfold emptyOrAbsent. destruct l as [[|c l]|]; simpl; split; intros H;
    auto; try discriminate; destruct H; discriminate.
Qed.

(** C8. Every field of the configuration has a default and none is
    required: the empty object validates, and what comes out is exactly the
    default configuration, [./worktrees], [feat], 40, the default hooks,
    [wezterm], the three flags on and base branch [main]. *)
Theorem configSchema_empty_object_is_default :
  configSchema defaultHooks (VObj []) = Ok (defaultConfig defaultHooks)
  /\ validateConfig defaultHooks (VObj [])
     = ValidationSuccess (defaultConfig defaultHooks)
  /\ mergeConfig defaultHooks (VObj []) = Ok (defaultConfig defaultHooks)
  /\ defaultConfig defaultHooks
     = {| worktreesDir := "./worktrees";
          defaultBranchType := Feat;
          maxBranchSlugLength := 40;
          hooks := defaultHooks;
          terminal := Wezterm;
          autoOpenTerminal := true;
          autoRunHooks := true;
          defaultBaseBranch := "main";
          useAiBranchNaming := true |}.
Proof.
  repeat split.
Qed.

(** C9. An empty hooks section does not switch the default hooks off: when
    [afterCreate] and [beforeDestroy] are both empty or absent,
    [getHooksConfig] returns the built-in default hooks; as soon as one of
    the two lists is non-empty it returns the configured hooks. *)
Theorem getHooksConfig_empty_gives_defaults (cfg : Config) :
  (emptyOrAbsent (afterCreate (hooks cfg))
   /\ emptyOrAbsent (beforeDestroy (hooks cfg)) ->
   getHooksConfig defaultHooks cfg = defaultHooks)
  /\ (~ (emptyOrAbsent (afterCreate (hooks cfg))
         /\ emptyOrAbsent (beforeDestroy (hooks cfg))) ->
      getHooksConfig defaultHooks cfg = hooks cfg).
Proof.
  unfold getHooksConfig. cbn [orb]. split.
  - intros [Ha Hb].
    apply noLength_emptyOrAbsent in Ha. apply noLength_emptyOrAbsent in Hb.
    rewrite Ha, Hb. reflexivity.
  - intros Hn.
    destruct (noLength (afterCreate (hooks cfg))) eqn:Ea;
      destruct (noLength (beforeDestroy (hooks cfg))) eqn:Eb;
      try reflexivity.
    exfalso. apply Hn. split; apply noLength_emptyOrAbsent; assumption.
Qed.

(** C3, as amended. A module [opencode.config.ts] that exposes a
    [transmute] section which passes the schema wins over any JSON
    configuration file: the result is the validated section, with source
    [opencode.config.ts] and the path of the module. When none of the
    configuration files is present, the built-in defaults are returned
    with source [default] and no path. *)
Theorem loadConfig_valid_section_wins :
  (forall (rt : Runtime) (basePath : string) (t : value) (c : Config),
      Precedence.exposesTransmute rt basePath t ->
      configSchema defaultHooks t = Ok c ->
      loadConfig defaultHooks JSON_parse rt basePath
      = Ok {| config := c;
              source := SourceOpencodeConfig;
              configPath :=
                Some (Path.join [basePath; "opencode.config.ts"]) |})
  /\ (forall (rt : Runtime) (basePath : string),
        Precedence.noSource rt basePath ->
        loadConfig defaultHooks JSON_parse rt basePath
        = Ok {| config := defaultConfig defaultHooks;
                source := SourceDefault;
                configPath := None |}).
Proof.
  split.
  - intros rt basePath t c [Hacc [module [Himp Hsec]]] Hvalid.
    rewrite loadConfig_levels.
    unfold Precedence.firstAvailable, Precedence.moduleLevel.
    cbv zeta. rewrite Hacc, Himp, Hsec, Hvalid. reflexivity.
  - intros rt basePath (H1 & H2 & H3).
    rewrite loadConfig_levels.
    unfold Precedence.firstAvailable, Precedence.moduleLevel,
      Precedence.jsonLevel.
    cbv zeta. rewrite H1, H2, H3. reflexivity.
Qed.

(** C7. Loading the configuration is never a hard failure: whatever the
    files contain, [loadConfig] returns; what it returns is the yield of the
    first level, in the order module section, JSON file, defaults, that
    yields a configuration, so a level that cannot be read, parsed or
    validated is passed over silently. *)
Theorem loadConfig_never_fails (rt : Runtime) (basePath : string) :
  exists r : LoadConfigResult,
    loadConfig defaultHooks JSON_parse rt basePath = Ok r
    /\ r = Precedence.firstAvailable defaultHooks JSON_parse rt basePath.
Proof.
  eexists. split; [apply loadConfig_levels | reflexivity].
Qed.

End ConfigurationFacts.

(** C9 at two configurations: an empty hooks object, and one with an
    [afterCreate] list. *)
Lemma getHooksConfig_empty_gives_defaults_witness :
  getHooksConfig Examples.someHooks
    (Examples.withHooks (mkHooks (Some []) None))
  = Examples.someHooks
  /\ getHooksConfig Examples.someHooks
       (Examples.withHooks (mkHooks (Some ["npm ci"]) None))
     = mkHooks (Some ["npm ci"]) None.
Proof.
  split.
  - apply (proj1 (getHooksConfig_empty_gives_defaults Examples.someHooks
                    (Examples.withHooks (mkHooks (Some []) None)))).
    split; [right | left]; reflexivity.
  - apply (proj2 (getHooksConfig_empty_gives_defaults Examples.someHooks
                    (Examples.withHooks (mkHooks (Some ["npm ci"]) None)))).
    simpl. intros [[H|H] _]; discriminate.
Defined.

(** C3, as amended, at a repository whose module sets the terminal to
    [kitty] next to a JSON file, and at a repository without
    configuration. *)
Lemma loadConfig_valid_section_wins_witness :
  loadConfig Examples.someHooks Examples.parseExamples
    (Examples.repoWithBoth Examples.kittySection) "/repo"
  = Ok {| config := mkConfig "./worktrees" Feat 40 Examples.someHooks Kitty
                      true true "main" true;
          source := SourceOpencodeConfig;
          configPath := Some (Path.join ["/repo"; "opencode.config.ts"]) |}
  /\ loadConfig Examples.someHooks Examples.parseExamples
       Examples.repoWithoutConfig "/repo"
     = Ok {| config := defaultConfig Examples.someHooks;
             source := SourceDefault;
             configPath := None |}.
Proof.
  split.
  - apply (proj1 (loadConfig_valid_section_wins Examples.someHooks
                    Examples.parseExamples))
      with (t := Examples.kittySection).
    + split; [reflexivity|].
      eexists. split; reflexivity.
    + reflexivity.
  - apply (proj2 (loadConfig_valid_section_wins Examples.someHooks
                    Examples.parseExamples)).
    repeat split.
Defined.

(** The JSON level is one file: when the file at the first location is
    there and broken, the defaults are returned, also with a sound file at
    the second location. *)
Lemma loadConfig_broken_first_json_gives_defaults :
  loadConfig Examples.someHooks Examples.parseExamples
    Examples.repoWithBrokenFirstJson "/repo"
  = Ok {| config := defaultConfig Examples.someHooks;
          source := SourceDefault;
          configPath := None |}.
Proof. vm_compute. reflexivity. Qed.

(** C3 as stated fails: the module exposes a [transmute] section, but its
    terminal is not one the schema accepts, and the values of the JSON
    file are what [loadConfig] returns. *)
Lemma loadConfig_invalid_section_loses :
  Precedence.exposesTransmute
    (Examples.repoWithBoth Examples.invalidSection) "/repo"
    Examples.invalidSection
  /\ loadConfig Examples.someHooks Examples.parseExamples
       (Examples.repoWithBoth Examples.invalidSection) "/repo"
     = Ok {| config := mkConfig "./custom" Feat 40 Examples.someHooks Wezterm
                         true true "main" true;
             source := SourceJson;
             configPath := Some "/repo/.opencode/transmute.config.json" |}.
Proof.
  split.
  - split; [reflexivity|]. eexists. split; reflexivity.
  - vm_compute. reflexivity.
Qed.

(** * Properties of the plugin entry point *)

Section PluginFacts.

Variable OpenCodeClient : Type.
Variable createWezTermAdapter : TerminalAdapter.
Variable startTask :
  Plugin.StartTaskInput -> string -> Plugin.StartTaskOptions OpenCodeClient
  -> Result WorkspaceResult.
Variable JSON_stringify : value -> string.

(** C10. [createTerminalAdapter] returns no adapter only for the terminal
    [none]; for [wezterm] and also for [tmux] and [kitty], which the schema
    accepts and the plugin does not implement, it returns the WezTerm
    adapter. *)
Theorem createTerminalAdapter_falls_back_to_wezterm (cfg : Config) :
  (Plugin.createTerminalAdapter createWezTermAdapter cfg = None
   <-> terminal cfg = NoTerminal)
  /\ (terminal cfg = Wezterm \/ terminal cfg = Tmux \/ terminal cfg = Kitty ->
      Plugin.createTerminalAdapter createWezTermAdapter cfg
      = Some createWezTermAdapter)
  /\ (forall (defaultHooks : HooksConfig) (name : string),
        name = "tmux" \/ name = "kitty" ->
        exists c,
          configSchema defaultHooks (VObj [("terminal", VStr name)]) = Ok c
          /\ terminalTypeName (terminal c) = name
          /\ Plugin.createTerminalAdapter createWezTermAdapter c
             = Some createWezTermAdapter).
Proof.
  unfold Plugin.createTerminalAdapter. repeat split.
  - destruct (terminal cfg); intros H; try discriminate; reflexivity.
  - intros ->. reflexivity.
  - intros [-> | [-> | ->]]; reflexivity.
  - intros defaultHooks name [-> | ->]; eexists; repeat split.
Qed.

(** Whatever [startTask] does, the guarded [execute] returns: its result
    serialised with a message that fits the status, or, when [startTask]
    throws, a failed result carrying the error. *)
Lemma execute_never_raises (env : Plugin.Closure OpenCodeClient)
    (args : Plugin.StartTaskInput) (context : Plugin.ToolContext) :
  match startTask (Plugin.startTaskInput env args) (Plugin.basePath env)
          (Plugin.startTaskOptions env context) with
  | Ok result =>
      Plugin.execute startTask JSON_stringify env args context
      = Ok (JSON_stringify (Plugin.resultPayload env result))
      /\ (status result = failed ->
          Plugin.resultMessage result <> EmptyString
          /\ (forall m, Workspace.message result = Some m -> m <> EmptyString ->
                        Plugin.resultMessage result = m))
  | Throw e =>
      Plugin.execute startTask JSON_stringify env args context
      = Ok (JSON_stringify
              (VObj [("status", VStr "failed");
                     ("message", VStr ("Error: " ++ e));
                     ("taskId",
                      VStr (strOr (Plugin.taskId args) "unknown"))]))
  end.
Proof.
  unfold Plugin.execute.
  destruct (startTask _ _ _) as [result|e]; simpl; [|reflexivity].
  split; [reflexivity|].
  intros Hs. unfold Plugin.resultMessage. rewrite Hs.
  destruct (Workspace.message result) as [m|]; simpl.
  - unfold strOr. destruct (String.eqb_spec m EmptyString); split.
    + discriminate.
    + intros m' [= <-]. contradiction.
    + assumption.
    + intros m' [= <-] _. reflexivity.
  - split; [discriminate|]. intros m [=].
Qed.

(** The [execute] without configuration catches nothing: a throw of
    [getGitRoot] or of [startTask] is what the caller gets. *)
Lemma execute_unguarded_propagates (getGitRoot : Result string)
    (ctxClient : OpenCodeClient) (args : Plugin.StartTaskInput)
    (context : Plugin.ToolContext) :
  match getGitRoot with
  | Throw e =>
      PluginNoConfig.execute createWezTermAdapter startTask JSON_stringify
        getGitRoot ctxClient args context = Throw e
  | Ok basePath =>
      match startTask args basePath
              (PluginNoConfig.startTaskOptions createWezTermAdapter ctxClient context) with
      | Throw e =>
          PluginNoConfig.execute createWezTermAdapter startTask JSON_stringify
            getGitRoot ctxClient args context = Throw e
      | Ok result =>
          PluginNoConfig.execute createWezTermAdapter startTask JSON_stringify
            getGitRoot ctxClient args context
          = Ok (JSON_stringify (PluginNoConfig.resultPayload result))
      end
  end.
Proof.
  unfold PluginNoConfig.execute.
  destruct getGitRoot as [basePath|e]; simpl; [|reflexivity].
  destruct args; simpl.
  destruct (startTask _ _ _); reflexivity.
Qed.

End PluginFacts.

(** C10 at the configuration read from an object that selects [tmux]. *)
Lemma createTerminalAdapter_falls_back_to_wezterm_witness :
  Plugin.createTerminalAdapter Examples.anAdapter
    (mkConfig "./worktrees" Feat 40 Examples.someHooks Tmux true true "main"
       true)
  = Some Examples.anAdapter.
Proof.
  apply (proj1 (proj2 (createTerminalAdapter_falls_back_to_wezterm
                         Examples.anAdapter
                         (mkConfig "./worktrees" Feat 40 Examples.someHooks
                            Tmux true true "main" true)))).
  right. left. reflexivity.
Defined.

(** C2 at a call made outside a repository: the [execute] without
    configuration throws the error of [getGitRoot] at its caller. *)
Lemma execute_unguarded_outside_repository :
  PluginNoConfig.execute Examples.anAdapter Examples.failingStartTask
    Examples.showStatus (Throw "NotARepositoryError: not a git repository")
    tt Examples.someArgs (Plugin.mkContext "session-123")
  = Throw "NotARepositoryError: not a git repository".
Proof. reflexivity. Qed.

(** The same [execute] on a failure that [startTask] reports: the status
    is [failed], the message is the one of a resumed worktree. *)
Lemma execute_unguarded_failed_reads_resumed :
  PluginNoConfig.execute Examples.anAdapter Examples.failingStartTask
    Examples.showStatus (Ok "/repo") tt Examples.someArgs
    (Plugin.mkContext "session-123")
  = Ok "failed: Resumed existing worktree for task: task-1".
Proof. reflexivity. Qed.

(** * Properties of the branch namer *)

Section NamingFacts.

Import Naming.


























End NamingFacts.



(** * Properties of paths *)

Section PathFacts.

Import Path.

Lemma splitOn_not_nil (sep : ascii) (s : string) : splitOn sep s <> [].
Proof.
  destruct s as [|c s]; simpl.
  - discriminate.
  - destruct (Ascii.eqb c sep); [discriminate|].
    destruct (splitOn sep s); discriminate.
Qed.

(** Splitting distributes over a separator. *)
Lemma splitOn_app (sep : ascii) (a b : string) :
  splitOn sep (a ++ String sep b) = (splitOn sep a ++ splitOn sep b)%list.
Proof.
  induction a as [|c a IH]; simpl.
  - rewrite Ascii.eqb_refl. reflexivity.
  - destruct (Ascii.eqb c sep).
    + rewrite IH. reflexivity.
    + rewrite IH. destruct (splitOn sep a) as [|h t] eqn:E.
      * exfalso. exact (splitOn_not_nil _ _ E).
      * reflexivity.
Qed.

Lemma endsWithSlash_app (a : string) (c : ascii) (b : string) :
  endsWithSlash (a ++ String c b) = endsWithSlash (String c b).
Proof.
  induction a as [|x a IH].
  - reflexivity.
  - change (String x a ++ String c b) with (String x (a ++ String c b)).
    destruct a as [|y a]; simpl in *; exact IH.
Qed.

(** Two tails that leave every stack of segments the same normalise to
    the same path behind any prefix. *)
Lemma normalize_tail (a r1 r2 : string) (c1 c2 : ascii) (t1 t2 : string) :
  r1 = String c1 t1 -> r2 = String c2 t2 ->
  endsWithSlash r1 = endsWithSlash r2 ->
  (forall allow st,
      fold_left (normStep allow) (splitOn "/" r1) st
      = fold_left (normStep allow) (splitOn "/" r2) st) ->
  normalize (a ++ "/" ++ r1) = normalize (a ++ "/" ++ r2).
Proof.
  intros E1 E2 Hend Hfold.
  assert (Hs : forall r, startsWithSlash (a ++ "/" ++ r)
                         = startsWithSlash (a ++ "/")).
  { intros r. destruct a; reflexivity. }
  assert (Hne : forall r, String.eqb (a ++ "/" ++ r) EmptyString = false).
  { intros r. destruct a; reflexivity. }
  assert (He : endsWithSlash (a ++ "/" ++ r1) = endsWithSlash (a ++ "/" ++ r2)).
  { change (a ++ "/" ++ r1) with (a ++ String "/" r1).
    change (a ++ "/" ++ r2) with (a ++ String "/" r2).
    rewrite !endsWithSlash_app. subst r1 r2.
    change (endsWithSlash (String "/" (String c1 t1)))
      with (endsWithSlash (String c1 t1)).
    change (endsWithSlash (String "/" (String c2 t2)))
      with (endsWithSlash (String c2 t2)).
    exact Hend. }
  assert (Hn : forall allow,
             normalizeString (a ++ "/" ++ r1) allow
             = normalizeString (a ++ "/" ++ r2) allow).
  { intros allow. unfold normalizeString.
    change (a ++ "/" ++ r1) with (a ++ String "/" r1).
    change (a ++ "/" ++ r2) with (a ++ String "/" r2).
    rewrite !splitOn_app, !fold_left_app, Hfold. reflexivity. }
  unfold normalize. rewrite !Hne, !Hs, He, Hn. reflexivity.
Qed.

End PathFacts.

(** * Properties of the session store *)

Section SessionStoreFacts.

Import SessionStore.

Lemma hasTask_refl (s : Session.t) : hasTask (Session.taskId s) s = true.
Proof. apply String.eqb_refl. Qed.

Lemma hasTask_eq (taskId : string) (s : Session.t) :
  hasTask taskId s = true -> Session.taskId s = taskId.
Proof. apply String.eqb_eq. Qed.

(** A session that was upserted is the one found under its task id. *)
Lemma find_upsert (s : Session.t) (l : list Session.t) :
  find (hasTask (Session.taskId s)) (upsert s l) = Some s.
Proof.
  unfold upsert.
  destruct (existsb (hasTask (Session.taskId s)) l) eqn:E.
  - induction l as [|x l IH]; simpl in *; [discriminate|].
    destruct (hasTask (Session.taskId s) x) eqn:Ex.
    + rewrite hasTask_refl. reflexivity.
    + rewrite Ex. apply IH. exact E.
  - induction l as [|x l IH]; simpl in *.
    + rewrite hasTask_refl. reflexivity.
    + apply orb_false_iff in E as [Ex El]. rewrite Ex. apply IH, El.
Qed.

Lemma find_removed (taskId : string) (l : list Session.t) :
  find (hasTask taskId) (filter (fun s => negb (hasTask taskId s)) l) = None.
Proof.
  induction l as [|x l IH]; simpl; [reflexivity|].
  destruct (hasTask taskId x) eqn:E; simpl; [exact IH|].
  rewrite E. exact IH.
Qed.

Lemma removed_absent (taskId : string) (l : list Session.t) (s : Session.t) :
  In s (filter (fun s => negb (hasTask taskId s)) l) ->
  Session.taskId s <> taskId.
Proof.
  intros H. apply filter_In in H as [_ H].
  intros E. unfold hasTask in H. rewrite E, String.eqb_refl in H.
  discriminate.
Qed.

(** What [findSessionByTask] returns, and that it leaves the repository
    as it is. *)
Lemma findSessionByTask_loaded (basePath taskId : string) (w : World) :
  findSessionByTask basePath taskId w
  = (Ok (find (hasTask taskId) (loadedSessions w)), w).
Proof.
  unfold findSessionByTask, loadState, loadedSessions, bindM, ret.
  destruct (stateFile w); reflexivity.
Qed.

Lemma loadState_loaded (basePath : string) (w : World) :
  loadState basePath w = (Ok (mkState (loadedSessions w)), w).
Proof.
  unfold loadState, loadedSessions.
  destruct (stateFile w) as [| |[l]]; reflexivity.
Qed.

Lemma saveSession_upserts (basePath : string) (s : Session.t) (w : World) :
  saveSession basePath s w
  = (Ok tt,
     {| stateFile := FileState (mkState (upsert s (loadedSessions w)));
        branches := branches w;
        worktrees := worktrees w;
        directories := directories w;
        now := now w;
        shell := shell w;
        journal := journal w |}).
Proof.
  unfold saveSession, bindM. rewrite loadState_loaded. reflexivity.
Qed.

Lemma removeSession_filters (basePath taskId : string) (w : World) :
  removeSession basePath taskId w
  = (Ok tt,
     {| stateFile :=
          FileState (mkState (filter (fun s => negb (hasTask taskId s))
                                (loadedSessions w)));
        branches := branches w;
        worktrees := worktrees w;
        directories := directories w;
        now := now w;
        shell := shell w;
        journal := journal w |}).
Proof.
  unfold removeSession, bindM. rewrite loadState_loaded. reflexivity.
Qed.

End SessionStoreFacts.

(** * Properties of the workspace flow *)

Section FlowFacts.

Variable defaultHooks : HooksConfig.

Lemma bindM_ok {A B} (m : M A) (k : A -> M B) (w w' : World) (a : A) :
  m w = (Ok a, w') -> bindM m k w = k a w'.
Proof. unfold bindM. intros ->. reflexivity. Qed.

Lemma bindM_throw {A B} (m : M A) (k : A -> M B) (w w' : World) (e : string) :
  m w = (Throw e, w') -> bindM m k w = (Throw e, w').
Proof. unfold bindM. intros ->. reflexivity. Qed.

Lemma withJournal_same (w : World) : withJournal (journal w) w = w.
Proof. destruct w; reflexivity. Qed.

Lemma journalOnly_ret : journalOnly (ret tt).
Proof.
  intros w. exists (journal w). unfold ret. rewrite withJournal_same.
  reflexivity.
Qed.

Lemma journalOnly_record (e : Event) : journalOnly (Hooks.record e).
Proof. intros w. exists (e :: journal w). reflexivity. Qed.

Lemma journalOnly_seq (m1 m2 : M unit) :
  journalOnly m1 -> journalOnly m2 -> journalOnly (bindM m1 (fun _ => m2)).
Proof.
  intros H1 H2 w. unfold bindM.
  destruct (H1 w) as [j1 ->]. destruct (H2 (withJournal j1 w)) as [j2 ->].
  exists j2. reflexivity.
Qed.

Lemma journalOnly_runHooks (commands : list string) (cwd : string) :
  journalOnly (Hooks.runHooks commands cwd).
Proof.
  induction commands as [|c l IH]; simpl.
  - apply journalOnly_ret.
  - apply journalOnly_seq; [|exact IH].
    intros w. exists (HookRan c cwd (shell w c cwd) :: journal w). reflexivity.
Qed.

Lemma journalOnly_openTerminal (adapter : option TerminalAdapter)
    (options : OpenSessionOptions) :
  journalOnly (Hooks.openTerminal adapter options).
Proof.
  unfold Hooks.openTerminal. destruct adapter as [t|].
  - destruct (isAvailable t); [|apply journalOnly_record].
    destruct (openSession t options); apply journalOnly_record.
  - apply journalOnly_ret.
Qed.

Lemma journalOnly_when (b : bool) (m : M unit) :
  journalOnly m -> journalOnly (Orchestrator.when b m).
Proof.
  intros H. destruct b; [exact H | apply journalOnly_ret].
Qed.

(** A resume always succeeds: it reports the recorded branch and path and
    writes the refreshed session back. *)
Lemma resume_existing (input : Orchestrator.CreateWorkspaceInput)
    (basePath : string) (options : Orchestrator.Options) (s : Session.t)
    (w : World) :
  exists r j,
    Orchestrator.resume input basePath options s w
    = (Ok r,
       {| stateFile :=
            FileState
              (mkState (SessionStore.upsert
                          (Orchestrator.refreshed options (now w) s)
                          (loadedSessions w)));
          branches := branches w;
          worktrees := worktrees w;
          directories := directories w;
          now := now w;
          shell := shell w;
          journal := j |})
    /\ status r = existing
    /\ branch r = Some (Session.branch s)
    /\ worktreePath r = Some (Session.worktreePath s).
Proof.
  unfold Orchestrator.resume, Orchestrator.clock.
  unfold bindM at 1. unfold bindM at 1.
  rewrite saveSession_upserts.
  match goal with
  | |- context [Orchestrator.when ?b ?m] =>
      destruct (journalOnly_when b (m := m)
                  (journalOnly_openTerminal _ _)
                  {| stateFile :=
                       FileState
                         (mkState (SessionStore.upsert
                                     (Orchestrator.refreshed options (now w) s)
                                     (loadedSessions w)));
                     branches := branches w;
                     worktrees := worktrees w;
                     directories := directories w;
                     now := now w;
                     shell := shell w;
                     journal := journal w |}) as [j Hj]
  end.
  unfold bindM. rewrite Hj.
  eexists. exists j. unfold ret, withJournal. simpl.
  split; [reflexivity|]. repeat split.
Qed.

(** All the ways a creation can go: the branch name is refused, the
    worktree is refused, or worktree and session are in place. *)
Lemma createNew_cases (cfg : Config)
    (input : Orchestrator.CreateWorkspaceInput) (basePath : string)
    (options : Orchestrator.Options) (w : World) :
  match Naming.generateBranchName cfg true (Orchestrator.taskOf input)
          (Orchestrator.overrideOf input) with
  | Throw e =>
      Orchestrator.createNew defaultHooks cfg input basePath options w
      = (Throw e, w)
  | Ok name =>
      let branch := Naming.branchString name in
      let path := WorktreeManager.worktreePathFor cfg branch basePath in
      let base := optStrOr (Orchestrator.baseBranch input)
                    (defaultBaseBranch cfg) in
      if WorktreeManager.pathExists path w
         || strIn branch (branches w)
         || negb (strIn base (branches w))
      then exists e,
          Orchestrator.createNew defaultHooks cfg input basePath options w
          = (Throw e, w)
      else exists j,
          Orchestrator.createNew defaultHooks cfg input basePath options w
          = (Ok (Orchestrator.createdResult input options branch path),
             Orchestrator.afterCreation input options branch path j w)
  end.
Proof.
  unfold Orchestrator.createNew.
  destruct (Naming.generateBranchName _ _ _ _) as [name|e].
  2: { apply bindM_throw. reflexivity. }
  cbv zeta.
  erewrite bindM_ok by (unfold lift; reflexivity).
  set (branch := Naming.branchString name).
  set (path := WorktreeManager.worktreePathFor cfg branch basePath).
  set (base := optStrOr _ _).
  destruct (WorktreeManager.pathExists path w) eqn:Ep; simpl orb; cbv iota.
  { eexists. apply bindM_throw. unfold WorktreeManager.createWorktree.
    fold path. rewrite Ep. reflexivity. }
  destruct (strIn branch (branches w)) eqn:Eb; simpl orb; cbv iota.
  { eexists. apply bindM_throw. unfold WorktreeManager.createWorktree.
    fold path. rewrite Ep, Eb. reflexivity. }
  destruct (strIn base (branches w)) eqn:Ebase; simpl negb; cbv iota.
  2: { eexists. apply bindM_throw. unfold WorktreeManager.createWorktree.
       fold path. rewrite Ep, Eb, Ebase. reflexivity. }
  erewrite bindM_ok.
  2: { unfold WorktreeManager.createWorktree. fold path.
       rewrite Ep, Eb, Ebase. reflexivity. }
  erewrite bindM_ok by reflexivity.
  erewrite bindM_ok by apply saveSession_upserts.
  match goal with
  | |- context [bindM (Orchestrator.when ?b1 ?m1)
                  (fun _ => bindM (Orchestrator.when ?b2 ?m2) ?k)] =>
      destruct (journalOnly_when b1 (journalOnly_runHooks
                                       (Orchestrator.afterCreateCommands
                                          defaultHooks cfg) path)
                  {| stateFile :=
                       FileState
                         (mkState (SessionStore.upsert
                                     (Orchestrator.newSession input options
                                        branch path (now w))
                                     (loadedSessions w)));
                     branches := (branches w ++ [branch])%list;
                     worktrees :=
                       (worktrees w ++ [Worktree.mk path branch false])%list;
                     directories := path :: directories w;
                     now := now w;
                     shell := shell w;
                     journal := journal w |}) as [j1 Hj1]
  end.
  cbn [stateFile branches worktrees directories now shell journal
       loadedSessions] in *.
  erewrite bindM_ok by exact Hj1.
  match goal with
  | |- context [bindM (Orchestrator.when ?b2 ?m2) ?k ?w2] =>
      destruct (journalOnly_when b2 (journalOnly_openTerminal
                                       (Orchestrator.terminal options)
                                       (Orchestrator.terminalOptions input path))
                  w2) as [j2 Hj2]
  end.
  erewrite bindM_ok by exact Hj2.
  exists j2. reflexivity.
Qed.

(** No generated branch is called [main]: it has a slash in it. *)
Lemma branchString_not_main (name : Naming.BranchName.t) :
  strIn (Naming.branchString name) ["main"] = false.
Proof. destruct name as [[] slug]; reflexivity. Qed.

(** The first call on a fresh repository, for an input whose branch name
    is accepted and whose base branch is [main]. *)
Lemma createWorkspace_on_fresh (cfg : Config)
    (input : Orchestrator.CreateWorkspaceInput) (repoRoot : string)
    (options : Orchestrator.Options) (t : Z) (sh : string -> string -> Z)
    (name : Naming.BranchName.t) :
  Naming.generateBranchName cfg true (Orchestrator.taskOf input)
    (Orchestrator.overrideOf input) = Ok name ->
  optStrOr (Orchestrator.baseBranch input) (defaultBaseBranch cfg) = "main" ->
  let branch := Naming.branchString name in
  let path := WorktreeManager.worktreePathFor cfg branch repoRoot in
  exists j,
    Orchestrator.createWorkspace defaultHooks cfg input repoRoot options
      (Orchestrator.freshRepository repoRoot t sh)
    = (Orchestrator.createdResult input options branch path,
       Orchestrator.afterCreation input options branch path j
         (Orchestrator.freshRepository repoRoot t sh)).
Proof.
  intros Hname Hbase branch path. subst branch path.
  unfold Orchestrator.createWorkspace, Orchestrator.run.
  erewrite bindM_ok by apply findSessionByTask_loaded.
  cbn [loadedSessions Orchestrator.freshRepository stateFile find].
  pose proof (createNew_cases cfg input repoRoot options
                (Orchestrator.freshRepository repoRoot t sh)) as H.
  rewrite Hname in H. cbv zeta in H. rewrite Hbase in H.
  cbn [Orchestrator.freshRepository branches] in H.
  rewrite branchString_not_main in H.
  change (strIn "main" ["main"]) with true in H.
  change (WorktreeManager.pathExists
            (WorktreeManager.worktreePathFor cfg (Naming.branchString name)
               repoRoot) (Orchestrator.freshRepository repoRoot t sh))
    with false in H.
  cbn [orb negb] in H. destruct H as [j ->]. exists j. reflexivity.
Qed.


(** A call that does not fail leaves the session of the task in the store. *)
Lemma createWorkspace_persists (cfg : Config)
    (input : Orchestrator.CreateWorkspaceInput) (basePath : string)
    (options : Orchestrator.Options) (w w1 : World) (r : WorkspaceResult) :
  Orchestrator.createWorkspace defaultHooks cfg input basePath options w
  = (r, w1) ->
  status r <> failed ->
  exists s,
    find (SessionStore.hasTask (Orchestrator.taskId input)) (loadedSessions w1)
    = Some s.
Proof.
  unfold Orchestrator.createWorkspace, Orchestrator.run.
  erewrite bindM_ok by apply findSessionByTask_loaded.
  assert (Hnew :
    forall r w1,
      match Orchestrator.createNew defaultHooks cfg input basePath options w with
      | (Ok result, w') => (result, w')
      | (Throw msg, w') =>
          ({| status := failed;
              Workspace.taskId := Orchestrator.taskId input;
              taskName := None;
              Workspace.branch := None;
              worktreePath := None;
              Workspace.opencodeSessionId := None;
              message := Some msg |}, w')
      end = (r, w1) ->
      status r <> failed ->
      exists s,
        find (SessionStore.hasTask (Orchestrator.taskId input))
          (loadedSessions w1) = Some s).
  { clear r w1. intros r w1.
    pose proof (createNew_cases cfg input basePath options w) as H.
    destruct (Naming.generateBranchName _ _ _ _) as [name|e].
    - cbv zeta in H.
      destruct (_ || _ || _) in H.
      + destruct H as [e ->]. intros [= <- <-] Hs. contradiction Hs.
        reflexivity.
      + destruct H as [j ->]. intros [= <- <-] _.
        eexists.
        cbn [loadedSessions Orchestrator.afterCreation stateFile sessions].
        change (Orchestrator.taskId input)
          with (Session.taskId
                  (Orchestrator.newSession input options
                     (Naming.branchString name)
                     (WorktreeManager.worktreePathFor cfg
                        (Naming.branchString name) basePath) (now w))) at 1.
        apply find_upsert.
    - rewrite H. intros [= <- <-] Hs. contradiction Hs. reflexivity. }
  destruct (find _ (loadedSessions w)) as [s0|] eqn:Ef; [|apply Hnew].
  erewrite bindM_ok.
  2: { unfold WorktreeManager.worktreeExists. reflexivity. }
  destruct (existsb _ (worktrees w)); [|apply Hnew].
  destruct (resume_existing input basePath options s0 w)
    as (r0 & j & -> & _).
  intros [= <- <-] _.
  eexists.
  cbn [loadedSessions stateFile sessions].
  apply find_some in Ef as [_ Ef]. apply hasTask_eq in Ef.
  rewrite <- Ef.
  change (Session.taskId s0)
    with (Session.taskId (Orchestrator.refreshed options (now w) s0)) at 1.
  apply find_upsert.
Qed.

Lemma removeWorktree_keeps_sessions (p : string) (force : bool)
    (basePath : string) (w : World) :
  loadedSessions (snd (WorktreeManager.removeWorktree p force basePath w))
  = loadedSessions w.
Proof.
  unfold WorktreeManager.removeWorktree.
  destruct (existsb _ (worktrees w)); reflexivity.
Qed.


(** C4. Session and worktree are independent: after a call that did not
    fail, removing the worktree at the path of the result leaves the
    session discoverable by the task id; removing the session afterwards
    makes the lookup return nothing and leaves no entry for the task id in
    the loaded state. *)
Theorem session_outlives_worktree (cfg : Config)
    (input : Orchestrator.CreateWorkspaceInput) (basePath : string)
    (options : Orchestrator.Options) (w w1 : World) (r : WorkspaceResult)
    (p : string) (force : bool) :
  Orchestrator.createWorkspace defaultHooks cfg input basePath options w
  = (r, w1) ->
  status r <> failed ->
  worktreePath r = Some p ->
  let taskId := Orchestrator.taskId input in
  let w2 := snd (WorktreeManager.removeWorktree p force basePath w1) in
  let w3 := snd (SessionStore.removeSession basePath taskId w2) in
  (exists s,
      SessionStore.findSessionByTask basePath taskId w2 = (Ok (Some s), w2)
      /\ Session.taskId s = taskId)
  /\ SessionStore.findSessionByTask basePath taskId w3 = (Ok None, w3)
  /\ exists st,
       SessionStore.loadState basePath w3 = (Ok st, w3)
       /\ forall s, In s (sessions st) -> Session.taskId s <> taskId.
Proof.
  intros Hrun Hok _ taskId w2 w3.
  destruct (createWorkspace_persists cfg input basePath options w Hrun Hok)
    as [s Hs].
  split; [|split].
  - exists s. rewrite findSessionByTask_loaded. unfold w2.
    rewrite removeWorktree_keeps_sessions. fold taskId in Hs. rewrite Hs.
    split; [reflexivity|].
    apply find_some in Hs as [_ Hs]. apply hasTask_eq in Hs. exact Hs.
  - rewrite findSessionByTask_loaded. unfold w3.
    rewrite removeSession_filters. cbn [snd loadedSessions stateFile sessions].
    rewrite find_removed. reflexivity.
  - eexists. split; [apply loadState_loaded|].
    unfold w3. rewrite removeSession_filters.
    cbn [snd loadedSessions stateFile sessions].
    intros s0. apply removed_absent.
Qed.

(** The worktree directory of scenario A does not depend on the leading
    [./] of the configured directory. *)
Lemma join_scenario_path (repoRoot : string) :
  Path.join [repoRoot; "./worktrees"; "feat-task-1-integration-test-task"]
  = Path.join [repoRoot; "worktrees"; "feat-task-1-integration-test-task"].
Proof.
  destruct repoRoot as [|c root].
  - reflexivity.
  - change (Path.normalize
              (String c root ++ "/"
               ++ "./worktrees/feat-task-1-integration-test-task")
            = Path.normalize
                (String c root ++ "/"
                 ++ "worktrees/feat-task-1-integration-test-task")).
    apply (@normalize_tail (String c root)
             "./worktrees/feat-task-1-integration-test-task"
             "worktrees/feat-task-1-integration-test-task"
             "." "w"
             "/worktrees/feat-task-1-integration-test-task"
             "orktrees/feat-task-1-integration-test-task"
             eq_refl eq_refl eq_refl).
    intros allow st. reflexivity.
Qed.

(** C6. Scenario A: on a fresh repository with one branch [main], the task
    [task-1] titled [Integration Test Task] is created on the branch
    [feat/task-1-integration-test-task], in the directory that is the
    repository root joined with [worktrees] and the branch name with its
    slashes turned into dashes, and its session is found by the task id
    afterwards. *)
Theorem createWorkspace_scenario_A (repoRoot : string)
    (options : Orchestrator.Options) (t : Z) (sh : string -> string -> Z) :
  let outcome :=
    Orchestrator.createWorkspace defaultHooks (defaultConfig defaultHooks)
      Examples.scenarioA repoRoot options
      (Orchestrator.freshRepository repoRoot t sh) in
  let b := "feat/task-1-integration-test-task" in
  let p := Path.join [repoRoot; "worktrees";
                      "feat-task-1-integration-test-task"] in
  status (fst outcome) = created
  /\ Workspace.branch (fst outcome) = Some b
  /\ worktreePath (fst outcome) = Some p
  /\ exists s,
       SessionStore.findSessionByTask repoRoot "task-1" (snd outcome)
       = (Ok (Some s), snd outcome)
       /\ Session.taskId s = "task-1"
       /\ Session.branch s = b
       /\ Session.worktreePath s = p.
Proof.
  intros outcome b p.
  destruct (createWorkspace_on_fresh (defaultConfig defaultHooks)
              Examples.scenarioA repoRoot options t sh
              (name := Naming.BranchName.mk Feat "task-1-integration-test-task")
              eq_refl eq_refl) as [j Hout].
  fold outcome in Hout. rewrite Hout. cbn [fst snd].
  assert (Hp : WorktreeManager.worktreePathFor (defaultConfig defaultHooks)
                 (Naming.branchString
                    (Naming.BranchName.mk Feat "task-1-integration-test-task"))
                 repoRoot = p).
  { unfold p, b. apply join_scenario_path. }
  rewrite Hp.
  split; [reflexivity|]. split; [reflexivity|]. split; [reflexivity|].
  eexists. rewrite findSessionByTask_loaded.
  split; [reflexivity|]. repeat split.
Qed.

End FlowFacts.

(** C4 on the cleanup scenario: task [task-3] created on a fresh
    repository at [/repo], its worktree removed by force. *)
Lemma session_outlives_worktree_witness :
  let w1 :=
    snd (Orchestrator.createWorkspace Examples.someHooks
           (defaultConfig Examples.someHooks)
           (Orchestrator.inputOf Examples.cleanupTask) "/repo"
           Examples.cleanupOptions
           (Orchestrator.freshRepository "/repo" 0 Examples.quietShell)) in
  let w2 :=
    snd (WorktreeManager.removeWorktree "/repo/worktrees/feat-task-3-cleanup-task"
           true "/repo" w1) in
  let w3 := snd (SessionStore.removeSession "/repo" "task-3" w2) in
  (exists s,
      SessionStore.findSessionByTask "/repo" "task-3" w2 = (Ok (Some s), w2)
      /\ Session.taskId s = "task-3")
  /\ SessionStore.findSessionByTask "/repo" "task-3" w3 = (Ok None, w3)
  /\ exists st,
       SessionStore.loadState "/repo" w3 = (Ok st, w3)
       /\ forall s, In s (sessions st) -> Session.taskId s <> "task-3".
Proof.
  apply (@session_outlives_worktree Examples.someHooks
           (defaultConfig Examples.someHooks)
           (Orchestrator.inputOf Examples.cleanupTask) "/repo"
           Examples.cleanupOptions
           (Orchestrator.freshRepository "/repo" 0 Examples.quietShell)
           _
           (fst (Orchestrator.createWorkspace Examples.someHooks
                   (defaultConfig Examples.someHooks)
                   (Orchestrator.inputOf Examples.cleanupTask) "/repo"
                   Examples.cleanupOptions
                   (Orchestrator.freshRepository "/repo" 0
                      Examples.quietShell)))
           "/repo/worktrees/feat-task-3-cleanup-task" true).
  - reflexivity.
  - simpl. discriminate.
  - reflexivity.
Defined.

(** * Further properties of the configuration schema *)

Section SchemaFacts.

Variable defaultHooks : HooksConfig.

Lemma enumOf_sound {A} (name : A -> string) (all : list A) (s : string) (a : A) :
  Zod.enumOf name all s = Some a -> name a = s.
Proof.
  induction all as [|x all IH]; simpl; [discriminate|].
  destruct (String.eqb_spec (name x) s) as [E|_]; [|exact IH].
  intros [= <-]. exact E.
Qed.

Lemma enumOf_branchType (t : BranchType) :
  Zod.enumOf branchTypeName allBranchTypes (branchTypeName t) = Some t.
Proof. destruct t; reflexivity. Qed.

Lemma enumOf_terminalType (t : TerminalType) :
  Zod.enumOf terminalTypeName allTerminalTypes (terminalTypeName t) = Some t.
Proof. destruct t; reflexivity. Qed.

Lemma Qred_integer (n : positive) : Qred (Zpos n # 1) = (Zpos n # 1)%Q.
Proof.
  unfold Qred. cbn [Qnum Qden].
  generalize (Z.ggcd_gcd (Zpos n) 1) (Z.ggcd_correct_divisors (Zpos n) 1).
  destruct (Z.ggcd (Zpos n) 1) as (g, (aa, bb)). cbn [fst snd].
  intros Hg [Ha Hb]. rewrite Z.gcd_1_r in Hg. subst g.
  rewrite Z.mul_1_l in Ha, Hb. subst aa bb. reflexivity.
Qed.

Lemma positiveInt_of_integer (what : string) (n : positive) :
  Zod.positiveInt what (VNum (Zpos n # 1)) = Ok n.
Proof.
  unfold Zod.positiveInt. rewrite Qred_integer. reflexivity.
Qed.

Lemma positiveInt_sound (what : string) (v : value) (n : positive) :
  Zod.positiveInt what v = Ok n ->
  exists q, v = VNum q /\ Qeq q (Zpos n # 1).
Proof.
  destruct v as [| | |q| | |]; simpl; try discriminate.
  intros H. exists q. split; [reflexivity|].
  rewrite <- (Qred_correct q).
  destruct (Qred q) as [num den]. simpl in H.
  destruct num as [|p|p]; try discriminate.
  destruct den; try discriminate.
  injection H as ->. reflexivity.
Qed.

(** The nine steps of a successful validation. *)
Lemma configSchema_steps (f : list (string * value)) (c : Config) :
  configSchema defaultHooks (VObj f) = Ok c ->
  Zod.default (Zod.string_ "worktreesDir") "./worktrees"
    (getProp "worktreesDir" f) = Ok (worktreesDir c)
  /\ Zod.default (Zod.enum branchTypeName allBranchTypes "defaultBranchType")
       Feat (getProp "defaultBranchType" f) = Ok (defaultBranchType c)
  /\ Zod.default (Zod.positiveInt "maxBranchSlugLength") 40%positive
       (getProp "maxBranchSlugLength" f) = Ok (maxBranchSlugLength c)
  /\ Zod.default hooksConfigSchema defaultHooks (getProp "hooks" f)
     = Ok (hooks c)
  /\ Zod.default (Zod.enum terminalTypeName allTerminalTypes "terminal")
       Wezterm (getProp "terminal" f) = Ok (terminal c)
  /\ Zod.default (Zod.boolean "autoOpenTerminal") true
       (getProp "autoOpenTerminal" f) = Ok (autoOpenTerminal c)
  /\ Zod.default (Zod.boolean "autoRunHooks") true
       (getProp "autoRunHooks" f) = Ok (autoRunHooks c)
  /\ Zod.default (Zod.string_ "defaultBaseBranch") "main"
       (getProp "defaultBaseBranch" f) = Ok (defaultBaseBranch c)
  /\ Zod.default (Zod.boolean "useAiBranchNaming") true
       (getProp "useAiBranchNaming" f) = Ok (useAiBranchNaming c).
Proof.
  unfold configSchema. intros H.
  repeat match type of H with
         | context [bind (Zod.default ?s ?d ?v) _] =>
             let E := fresh "E" in
             destruct (Zod.default s d v) eqn:E; cbn [bind] in H;
             [|discriminate]
         end.
  injection H as <-. cbn. repeat split; reflexivity.
Qed.

(** The steps the other way round. *)
Lemma configSchema_of_steps (f : list (string * value)) (c : Config) :
  Zod.default (Zod.string_ "worktreesDir") "./worktrees"
    (getProp "worktreesDir" f) = Ok (worktreesDir c) ->
  Zod.default (Zod.enum branchTypeName allBranchTypes "defaultBranchType")
    Feat (getProp "defaultBranchType" f) = Ok (defaultBranchType c) ->
  Zod.default (Zod.positiveInt "maxBranchSlugLength") 40%positive
    (getProp "maxBranchSlugLength" f) = Ok (maxBranchSlugLength c) ->
  Zod.default hooksConfigSchema defaultHooks (getProp "hooks" f)
  = Ok (hooks c) ->
  Zod.default (Zod.enum terminalTypeName allTerminalTypes "terminal")
    Wezterm (getProp "terminal" f) = Ok (terminal c) ->
  Zod.default (Zod.boolean "autoOpenTerminal") true
    (getProp "autoOpenTerminal" f) = Ok (autoOpenTerminal c) ->
  Zod.default (Zod.boolean "autoRunHooks") true
    (getProp "autoRunHooks" f) = Ok (autoRunHooks c) ->
  Zod.default (Zod.string_ "defaultBaseBranch") "main"
    (getProp "defaultBaseBranch" f) = Ok (defaultBaseBranch c) ->
  Zod.default (Zod.boolean "useAiBranchNaming") true
    (getProp "useAiBranchNaming" f) = Ok (useAiBranchNaming c) ->
  configSchema defaultHooks (VObj f) = Ok c.
Proof.
  intros H1 H2 H3 H4 H5 H6 H7 H8 H9. unfold configSchema.
  rewrite H1, H2, H3, H4, H5, H6, H7, H8, H9. cbn [bind].
  destruct c; reflexivity.
Qed.

(** X1. Every configuration validates to itself: the schema accepts each
    [Config] written as an object and gives it back unchanged. *)
Theorem configSchema_accepts_every_config (c : Config) :
  configSchema defaultHooks (configValue c) = Ok c
  /\ validateConfig defaultHooks (configValue c) = ValidationSuccess c.
Proof.
  assert (H : configSchema defaultHooks (configValue c) = Ok c).
  { unfold configValue. apply configSchema_of_steps.
    - reflexivity.
    - cbn [getProp String.eqb Ascii.eqb Bool.eqb].
      unfold Zod.default, Zod.enum. rewrite enumOf_branchType. reflexivity.
    - cbn [getProp String.eqb Ascii.eqb Bool.eqb].
      unfold Zod.default. apply positiveInt_of_integer.
    - cbn [getProp String.eqb Ascii.eqb Bool.eqb].
      change (hooksConfigSchema (hooksValue (hooks c)) = Ok (hooks c)).
      apply hooksConfigSchema_hooksValue.
    - cbn [getProp String.eqb Ascii.eqb Bool.eqb].
      unfold Zod.default, Zod.enum. rewrite enumOf_terminalType. reflexivity.
    - reflexivity.
    - reflexivity.
    - reflexivity.
    - reflexivity. }
  split; [exact H|]. unfold validateConfig. rewrite H. reflexivity.
Qed.

Lemma default_string (what d : string) (v : value) (x : string) :
  Zod.default (Zod.string_ what) d v = Ok x ->
  v = VUndefined /\ x = d \/ v = VStr x.
Proof.
  destruct v; simpl; intros [=]; subst; auto.
Qed.

Lemma default_boolean (what : string) (d : bool) (v : value) (x : bool) :
  Zod.default (Zod.boolean what) d v = Ok x ->
  v = VUndefined /\ x = d \/ v = VBool x.
Proof.
  destruct v; simpl; intros [=]; subst; auto.
Qed.

Lemma default_enum {A} (name : A -> string) (all : list A) (what : string)
    (d : A) (v : value) (x : A) :
  Zod.default (Zod.enum name all what) d v = Ok x ->
  v = VUndefined /\ x = d \/ v = VStr (name x).
Proof.
  destruct v as [| | | |s| |]; simpl; try discriminate.
  - intros [= <-]. auto.
  - destruct (Zod.enumOf name all s) as [a|] eqn:E; [|discriminate].
    intros [= <-]. right. rewrite (enumOf_sound _ _ _ E). reflexivity.
Qed.

Lemma default_positiveInt (what : string) (d : positive) (v : value)
    (x : positive) :
  Zod.default (Zod.positiveInt what) d v = Ok x ->
  v = VUndefined /\ x = d \/ exists q, v = VNum q /\ Qeq q (Zpos x # 1).
Proof.
  destruct v as [| | |q| | |]; simpl Zod.default; try discriminate.
  - intros [= <-]. auto.
  - intros H. right. apply (@positiveInt_sound what (VNum q) x H).
Qed.

Lemma default_hooks (v : value) (x : HooksConfig) :
  Zod.default hooksConfigSchema defaultHooks v = Ok x ->
  v = VUndefined /\ x = defaultHooks \/ hooksConfigSchema v = Ok x.
Proof.
  destruct v; simpl Zod.default; auto. intros [= <-]. auto.
Qed.

(** X2. A partial configuration is merged with the defaults key by key:
    in a validated configuration each field is the value the object holds
    under its key, or the default of the field when the key is missing. *)
Theorem configSchema_merges_with_defaults (f : list (string * value))
    (c : Config) :
  configSchema defaultHooks (VObj f) = Ok c ->
  (getProp "worktreesDir" f = VUndefined /\ worktreesDir c = "./worktrees"
   \/ getProp "worktreesDir" f = VStr (worktreesDir c))
  /\ (getProp "defaultBranchType" f = VUndefined /\ defaultBranchType c = Feat
      \/ getProp "defaultBranchType" f
         = VStr (branchTypeName (defaultBranchType c)))
  /\ (getProp "maxBranchSlugLength" f = VUndefined
      /\ maxBranchSlugLength c = 40%positive
      \/ exists q, getProp "maxBranchSlugLength" f = VNum q
                   /\ Qeq q (Zpos (maxBranchSlugLength c) # 1))
  /\ (getProp "hooks" f = VUndefined /\ hooks c = defaultHooks
      \/ hooksConfigSchema (getProp "hooks" f) = Ok (hooks c))
  /\ (getProp "terminal" f = VUndefined /\ terminal c = Wezterm
      \/ getProp "terminal" f = VStr (terminalTypeName (terminal c)))
  /\ (getProp "autoOpenTerminal" f = VUndefined /\ autoOpenTerminal c = true
      \/ getProp "autoOpenTerminal" f = VBool (autoOpenTerminal c))
  /\ (getProp "autoRunHooks" f = VUndefined /\ autoRunHooks c = true
      \/ getProp "autoRunHooks" f = VBool (autoRunHooks c))
  /\ (getProp "defaultBaseBranch" f = VUndefined /\ defaultBaseBranch c = "main"
      \/ getProp "defaultBaseBranch" f = VStr (defaultBaseBranch c))
  /\ (getProp "useAiBranchNaming" f = VUndefined /\ useAiBranchNaming c = true
      \/ getProp "useAiBranchNaming" f = VBool (useAiBranchNaming c)).
Proof.
  intros H.
  apply configSchema_steps in H.
  destruct H as (H1 & H2 & H3 & H4 & H5 & H6 & H7 & H8 & H9).
  repeat split.
  - eapply default_string, H1.
  - eapply default_enum, H2.
  - eapply default_positiveInt, H3.
  - eapply default_hooks, H4.
  - eapply default_enum, H5.
  - eapply default_boolean, H6.
  - eapply default_boolean, H7.
  - eapply default_string, H8.
  - eapply default_boolean, H9.
Qed.

(** The result of a validation is a function of the values under the nine
    keys. *)
Lemma configSchema_ext (f f' : list (string * value)) :
  sameConfigKeys f f' ->
  configSchema defaultHooks (VObj f) = configSchema defaultHooks (VObj f').
Proof.
  intros H. unfold configSchema.
  rewrite !(fun key pf => H key pf) by (simpl; tauto).
  reflexivity.
Qed.

(** X3. Unknown keys are ignored: two objects that hold the same values
    under the nine keys of the schema validate to the same result, whatever
    else they hold and in whatever order. *)
Theorem configSchema_ignores_unknown_keys (f f' : list (string * value)) :
  sameConfigKeys f f' ->
  configSchema defaultHooks (VObj f) = configSchema defaultHooks (VObj f')
  /\ validateConfig defaultHooks (VObj f)
     = validateConfig defaultHooks (VObj f').
Proof.
  intros H. apply configSchema_ext in H. unfold validateConfig. rewrite H.
  split; reflexivity.
Qed.

Lemma enumOf_unknown {A} (name : A -> string) (all : list A) (s : string) :
  (forall a, name a <> s) -> Zod.enumOf name all s = None.
Proof.
  intros H. destruct (Zod.enumOf name all s) as [a|] eqn:E; [|reflexivity].
  exfalso. exact (H a (enumOf_sound _ _ _ E)).
Qed.

(** X4. What the schema refuses: an object with [null] under one of the
    nine keys, with a terminal or a default branch type outside the
    enumerations, or with a [maxBranchSlugLength] that is no positive
    integer does not validate. *)
Theorem configSchema_refuses (f : list (string * value)) :
  refusedField f ->
  (exists e, configSchema defaultHooks (VObj f) = Throw e)
  /\ (exists e, validateConfig defaultHooks (VObj f) = ValidationFailure e).
Proof.
  intros H.
  assert (E : exists e, configSchema defaultHooks (VObj f) = Throw e).
  { destruct (configSchema defaultHooks (VObj f)) as [c|e] eqn:E;
      [exfalso | eexists; reflexivity].
    apply configSchema_steps in E.
    destruct E as (H1 & H2 & H3 & H4 & H5 & H6 & H7 & H8 & H9).
    destruct H as [(key & Hin & Hnull) | [(s & Hs & Hno) | [(s & Hs & Hno)
                  | (q & Hq & Hno)]]].
    - simpl in Hin.
      repeat (destruct Hin as [<-|Hin];
              [rewrite Hnull in *; discriminate|]).
      contradiction.
    - rewrite Hs in H5. unfold Zod.default, Zod.enum in H5.
      rewrite enumOf_unknown in H5 by exact Hno. discriminate.
    - rewrite Hs in H2. unfold Zod.default, Zod.enum in H2.
      rewrite enumOf_unknown in H2 by exact Hno. discriminate.
    - rewrite Hq in H3. apply default_positiveInt in H3.
      destruct H3 as [[[=] _] | (q' & [= <-] & Hint)].
      apply Hno. eexists. exact Hint. }
  split; [exact E|]. destruct E as [e E]. exists e.
  unfold validateConfig. rewrite E. reflexivity.
Qed.

Lemma sameConfigKeys_dropKey (k : string) (f : list (string * value)) :
  ~ In k configKeys -> sameConfigKeys (dropKey k f) f.
Proof.
  intros Hk key Hin. rewrite getProp_dropKey.
  destruct (String.eqb_spec k key) as [->|_]; [contradiction|reflexivity].
Qed.

(** X5. No field is required: an object that validates still validates
    when any one key is taken away, and to the same configuration when the
    key is none of the nine. *)
Theorem configSchema_without_a_key (k : string) (f : list (string * value))
    (c : Config) :
  configSchema defaultHooks (VObj f) = Ok c ->
  exists c',
    configSchema defaultHooks (VObj (dropKey k f)) = Ok c'
    /\ (~ In k configKeys -> c' = c).
Proof.
  intros H.
  destruct (@configSchema_no_field_required defaultHooks k f c H)
    as [c' Hc'].
  exists c'. split; [exact Hc'|].
  intros Hk. apply (sameConfigKeys_dropKey f) in Hk.
  apply configSchema_ext in Hk. congruence.
Qed.

End SchemaFacts.

(** X2 at the partial configuration of the tests: the directory and the
    terminal are the given ones. *)
Lemma configSchema_merges_with_defaults_witness :
  (getProp "worktreesDir" MoreExamples.partialObject = VUndefined
   /\ worktreesDir MoreExamples.partialConfig = "./worktrees"
   \/ getProp "worktreesDir" MoreExamples.partialObject
      = VStr (worktreesDir MoreExamples.partialConfig))
  /\ (getProp "defaultBranchType" MoreExamples.partialObject = VUndefined
      /\ defaultBranchType MoreExamples.partialConfig = Feat
      \/ getProp "defaultBranchType" MoreExamples.partialObject
         = VStr (branchTypeName (defaultBranchType MoreExamples.partialConfig))).
Proof.
  pose proof (@configSchema_merges_with_defaults Examples.someHooks
                MoreExamples.partialObject MoreExamples.partialConfig
                eq_refl) as H.
  split; [exact (proj1 H) | exact (proj1 (proj2 H))].
Defined.

(** X3 at an object with a [$schema] key in front. *)
Lemma configSchema_ignores_unknown_keys_witness :
  configSchema Examples.someHooks (VObj MoreExamples.annotatedObject)
  = configSchema Examples.someHooks (VObj MoreExamples.partialObject).
Proof.
  apply (@configSchema_ignores_unknown_keys Examples.someHooks
           MoreExamples.annotatedObject MoreExamples.partialObject).
  intros key Hin. simpl in Hin.
  repeat (destruct Hin as [<-|Hin]; [reflexivity|]). contradiction.
Defined.

(** X4 at the object with the terminal [invalid]. *)
Lemma configSchema_refuses_witness :
  exists e,
    configSchema Examples.someHooks (VObj MoreExamples.invalidTerminalObject)
    = Throw e.
Proof.
  apply (@configSchema_refuses Examples.someHooks
           MoreExamples.invalidTerminalObject).
  right. left. exists "invalid". split; [reflexivity|].
  intros t. destruct t; discriminate.
Defined.

(** X5 at the partial configuration without its terminal. *)
Lemma configSchema_without_a_key_witness :
  exists c',
    configSchema Examples.someHooks
      (VObj (dropKey "terminal" MoreExamples.partialObject)) = Ok c'
    /\ (~ In "terminal" configKeys -> c' = MoreExamples.partialConfig).
Proof.
  apply (@configSchema_without_a_key Examples.someHooks "terminal"
           MoreExamples.partialObject MoreExamples.partialConfig).
  reflexivity.
Defined.

(** * Further properties of configuration loading *)

Section LoadingFacts.

Variable defaultHooks : HooksConfig.
Variable JSON_parse : string -> Result value.

(** [loadConfigFromOpencodeConfig] in one equation. *)
Lemma loadConfigFromOpencodeConfig_section (rt : Runtime) (basePath : string) :
  loadConfigFromOpencodeConfig rt basePath
  = Ok (sectionOrUndefined rt basePath).
Proof.
  unfold loadConfigFromOpencodeConfig, sectionOrUndefined, fileExists.
  destruct (access rt _); simpl; [|reflexivity].
  destruct (importModule rt _) as [module|e]; simpl; [|reflexivity].
  destruct module as [| |b|q|s|items|m]; simpl; try reflexivity.
  all: try (match goal with
            | |- context [Qeq_bool ?q 0] => destruct (Qeq_bool q 0)
            | |- context [String.eqb ?s EmptyString] =>
                destruct (String.eqb s EmptyString)
            end; reflexivity).
  - destruct b; reflexivity.
  - set (config := if truthy (getProp "default" m)
                   then getProp "default" m else VObj m).
    assert (Hc : truthy config = true).
    { unfold config. destruct (truthy (getProp "default" m)) eqn:E; auto. }
    destruct config as [| |b|q|s|items|f]; simpl in Hc |- *;
      try discriminate; try (rewrite Hc; reflexivity); try reflexivity.
    destruct (hasProp "transmute" f); reflexivity.
Qed.

(** X6. Looking for the section of [opencode.config.ts] never throws: a
    missing file, a failing import and a module without the key all give
    [undefined], and anything else it returns is the [transmute] section
    of the module that was imported. *)
Theorem loadConfigFromOpencodeConfig_never_throws (rt : Runtime)
    (basePath : string) :
  exists v,
    loadConfigFromOpencodeConfig rt basePath = Ok v
    /\ (v = VUndefined \/ Precedence.exposesTransmute rt basePath v)
    /\ (access rt (Path.join [basePath; "opencode.config.ts"]) = false ->
        v = VUndefined)
    /\ (forall e,
          importModule rt
            (Path.resolve (cwd rt)
               [Path.join [basePath; "opencode.config.ts"]]) = Throw e ->
          v = VUndefined).
Proof.
  exists (sectionOrUndefined rt basePath).
  split; [apply loadConfigFromOpencodeConfig_section|].
  unfold sectionOrUndefined, Precedence.exposesTransmute. cbv zeta.
  destruct (access rt _) eqn:Ea.
  - destruct (importModule rt _) as [module|e] eqn:Ei.
    + destruct (Precedence.transmuteSection module) as [t|] eqn:Es.
      * split; [|split; [discriminate | discriminate]].
        right. split; [reflexivity|]. exists module. split; first [assumption | reflexivity].
      * split; [left; reflexivity|]. split; [discriminate | discriminate].
    + split; [left; reflexivity|]. split; reflexivity.
  - split; [left; reflexivity|]. split; reflexivity.
Qed.

(** X7. The default export shadows the named exports: when the module has
    a truthy default export without a [transmute] key, no section is found,
    also when the module itself exports one. *)
Theorem default_export_shadows_named_section (rt : Runtime)
    (basePath : string) (m : list (string * value)) :
  importModule rt
    (Path.resolve (cwd rt) [Path.join [basePath; "opencode.config.ts"]])
  = Ok (VObj m) ->
  truthy (getProp "default" m) = true ->
  keyIn "transmute" (getProp "default" m) = false ->
  loadConfigFromOpencodeConfig rt basePath = Ok VUndefined
  /\ Precedence.moduleLevel defaultHooks rt basePath = None.
Proof.
  intros Hi Ht Hk.
  assert (Hs : Precedence.transmuteSection (VObj m) = None).
  { unfold Precedence.transmuteSection. rewrite Ht.
    destruct (getProp "default" m) as [| | | | | |f]; try reflexivity.
    simpl in Hk. rewrite Hk. reflexivity. }
  split.
  - rewrite loadConfigFromOpencodeConfig_section. unfold sectionOrUndefined.
    cbv zeta. rewrite Hi, Hs. destruct (access rt _); reflexivity.
  - unfold Precedence.moduleLevel. cbv zeta. rewrite Hi, Hs.
    destruct (access rt _); reflexivity.
Qed.

(** X8. Where a loaded configuration comes from: with source [default]
    there is no path and the configuration is the default one; with
    source [json] the path is the file [findConfigFile] found, which is
    there, reads, parses and validates to the configuration; with source
    [opencode.config.ts] the path is that of the module, whose section
    validates to the configuration. *)
Theorem loadConfig_provenance (rt : Runtime) (basePath : string) :
  exists r,
    loadConfig defaultHooks JSON_parse rt basePath = Ok r
    /\ match source r with
       | SourceDefault =>
           configPath r = None /\ config r = defaultConfig defaultHooks
       | SourceJson =>
           exists p text v,
             configPath r = Some p
             /\ findConfigFile rt basePath = Some p
             /\ access rt p = true
             /\ readFile rt p = Ok text
             /\ JSON_parse text = Ok v
             /\ configSchema defaultHooks v = Ok (config r)
       | SourceOpencodeConfig =>
           configPath r = Some (Path.join [basePath; "opencode.config.ts"])
           /\ exists t,
               Precedence.exposesTransmute rt basePath t
               /\ configSchema defaultHooks t = Ok (config r)
       end.
Proof.
  eexists. split; [apply loadConfig_levels|].
  unfold Precedence.firstAvailable.
  destruct (Precedence.moduleLevel defaultHooks rt basePath) as [r|] eqn:Em.
  - unfold Precedence.moduleLevel in Em. cbv zeta in Em.
    destruct (access rt _) eqn:Ea; [|discriminate].
    destruct (importModule rt _) as [module|] eqn:Ei; [|discriminate].
    destruct (Precedence.transmuteSection module) as [t|] eqn:Es;
      [|discriminate].
    destruct (configSchema defaultHooks t) as [c|] eqn:Ec; [|discriminate].
    injection Em as <-. cbn [source configPath config].
    split; [reflexivity|]. exists t. split; [|exact Ec].
    split; [exact Ea|]. exists module. split; assumption.
  - destruct (Precedence.jsonLevel defaultHooks JSON_parse rt basePath)
      as [r|] eqn:Ej.
    + unfold Precedence.jsonLevel in Ej. cbv zeta in Ej.
      unfold findConfigFile, CONFIG_FILES. cbn [findConfigFileIn].
      unfold fileExists.
      destruct (access rt (Path.join [basePath;
                                      ".opencode/transmute.config.json"]))
        eqn:E1.
      * destruct (readFile rt _) as [text|] eqn:Er; [|discriminate].
        destruct (JSON_parse text) as [v|] eqn:Ep; [|discriminate].
        destruct (configSchema defaultHooks v) as [c|] eqn:Ec; [|discriminate].
        injection Ej as <-. cbn [source configPath config].
        eexists. exists text, v.
        repeat split; try reflexivity; eassumption.
      * destruct (access rt (Path.join [basePath; "transmute.config.json"]))
          eqn:E2; [|discriminate].
        destruct (readFile rt _) as [text|] eqn:Er; [|discriminate].
        destruct (JSON_parse text) as [v|] eqn:Ep; [|discriminate].
        destruct (configSchema defaultHooks v) as [c|] eqn:Ec; [|discriminate].
        injection Ej as <-. cbn [source configPath config].
        eexists. exists text, v.
        repeat split; try reflexivity; eassumption.
    + split; reflexivity.
Qed.

(** X9. The first JSON location shadows the second: without a usable
    module section, when the file at [.opencode/transmute.config.json] is
    there but cannot be read, parsed or validated, the defaults are
    returned; [transmute.config.json] is not consulted. *)
Theorem loadConfig_first_json_shadows_second (rt : Runtime)
    (basePath : string) :
  Precedence.moduleLevel defaultHooks rt basePath = None ->
  access rt (Path.join [basePath; ".opencode/transmute.config.json"]) = true ->
  (forall text v c,
      readFile rt (Path.join [basePath; ".opencode/transmute.config.json"])
      = Ok text ->
      JSON_parse text = Ok v ->
      configSchema defaultHooks v = Ok c -> False) ->
  loadConfig defaultHooks JSON_parse rt basePath
  = Ok {| config := defaultConfig defaultHooks;
          source := SourceDefault;
          configPath := None |}.
Proof.
  intros Hm Ha Hbroken. rewrite loadConfig_levels.
  unfold Precedence.firstAvailable. rewrite Hm.
  unfold Precedence.jsonLevel. cbv zeta. rewrite Ha.
  destruct (readFile rt _) as [text|] eqn:Er; [|reflexivity].
  destruct (JSON_parse text) as [v|] eqn:Ep; [|reflexivity].
  destruct (configSchema defaultHooks v) as [c|] eqn:Ec; [|reflexivity].
  exfalso. exact (Hbroken text v c eq_refl Ep Ec).
Qed.

(** X10. [getHooksConfig] is idempotent: resolving the hooks of a
    configuration that already carries resolved hooks changes nothing. *)
Theorem getHooksConfig_idempotent (cfg cfg' : Config) :
  hooks cfg' = getHooksConfig defaultHooks cfg ->
  getHooksConfig defaultHooks cfg' = getHooksConfig defaultHooks cfg.
Proof.
  unfold getHooksConfig. cbn [orb]. intros ->.
  destruct (noLength (afterCreate (hooks cfg))
            && noLength (beforeDestroy (hooks cfg))) eqn:E.
  - destruct (noLength (afterCreate defaultHooks)
              && noLength (beforeDestroy defaultHooks)); reflexivity.
  - rewrite E. reflexivity.
Qed.

(** X11. Hooks cannot be emptied through the configuration: when the
    built-in default hooks have a command, so have the hooks that
    [getHooksConfig] returns, whatever the configuration. *)
Theorem getHooksConfig_never_empty (cfg : Config) :
  ~ (emptyOrAbsent (afterCreate defaultHooks)
     /\ emptyOrAbsent (beforeDestroy defaultHooks)) ->
  ~ (emptyOrAbsent (afterCreate (getHooksConfig defaultHooks cfg))
     /\ emptyOrAbsent (beforeDestroy (getHooksConfig defaultHooks cfg))).
Proof.
  intros Hd. unfold getHooksConfig. cbn [orb].
  destruct (noLength (afterCreate (hooks cfg))) eqn:Ea;
    destruct (noLength (beforeDestroy (hooks cfg))) eqn:Eb;
    cbn [andb]; try exact Hd; intros [Ha Hb];
    apply noLength_emptyOrAbsent in Ha; apply noLength_emptyOrAbsent in Hb;
    congruence.
Qed.

End LoadingFacts.

(** X7 at a module with a default export and a named [transmute]. *)
Lemma default_export_shadows_named_section_witness :
  loadConfigFromOpencodeConfig MoreExamples2.repoWithNamedExport "/repo"
  = Ok VUndefined
  /\ Precedence.moduleLevel Examples.someHooks
       MoreExamples2.repoWithNamedExport "/repo" = None.
Proof.
  apply (@default_export_shadows_named_section Examples.someHooks
           MoreExamples2.repoWithNamedExport "/repo"
           [("default", VObj [("theme", VStr "dark")]);
            ("transmute", Examples.kittySection)]);
    reflexivity.
Defined.

(** X9 at the repository whose first JSON file is broken and whose second
    one is sound. *)
Lemma loadConfig_first_json_shadows_second_witness :
  loadConfig Examples.someHooks Examples.parseExamples
    Examples.repoWithBrokenFirstJson "/repo"
  = Ok {| config := defaultConfig Examples.someHooks;
          source := SourceDefault;
          configPath := None |}.
Proof.
  apply (@loadConfig_first_json_shadows_second Examples.someHooks
           Examples.parseExamples Examples.repoWithBrokenFirstJson "/repo").
  - reflexivity.
  - reflexivity.
  - intros text v c Hr. vm_compute in Hr. injection Hr as <-.
    intros Hp. vm_compute in Hp. discriminate.
Defined.

(** X10 at a configuration with an empty hooks object. *)
Lemma getHooksConfig_idempotent_witness :
  getHooksConfig Examples.someHooks (Examples.withHooks Examples.someHooks)
  = getHooksConfig Examples.someHooks
      (Examples.withHooks (mkHooks None None)).
Proof.
  apply (@getHooksConfig_idempotent Examples.someHooks
           (Examples.withHooks (mkHooks None None))
           (Examples.withHooks Examples.someHooks)).
  reflexivity.
Defined.

(** X11 at the same configuration. *)
Lemma getHooksConfig_never_empty_witness :
  ~ (emptyOrAbsent
       (afterCreate (getHooksConfig Examples.someHooks
                       (Examples.withHooks (mkHooks None None))))
     /\ emptyOrAbsent
          (beforeDestroy (getHooksConfig Examples.someHooks
                            (Examples.withHooks (mkHooks None None))))).
Proof.
  apply (@getHooksConfig_never_empty Examples.someHooks
           (Examples.withHooks (mkHooks None None))).
  simpl. intros [[H|H] _]; discriminate.
Defined.

(** * Properties of [resolveWorktreesDir] *)

Section WorktreesDirFacts.

Import Path.

Lemma startsWithSlash_app (a b : string) :
  startsWithSlash a = true -> startsWithSlash (a ++ b) = true.
Proof. destruct a; simpl; [discriminate | auto]. Qed.

(** Under an absolute base the resolution stops at the base. *)
Lemma resolveFrom_absolute_base (cwd base wd : string) :
  startsWithSlash base = true ->
  startsWithSlash wd = false ->
  resolveFrom [cwd; base; wd] = resolveFrom [base; wd].
Proof.
  intros Hb Hw. cbn [resolveFrom].
  cbn [startsWithSlash].
  assert (Hr : startsWithSlash
                 (if String.eqb wd EmptyString then EmptyString
                  else wd ++ "/" ++ EmptyString) = false).
  { destruct wd as [|c wd]; [reflexivity|]. simpl in *. exact Hw. }
  rewrite Hr.
  assert (Hbase : String.eqb base EmptyString = false).
  { destruct base; [discriminate | reflexivity]. }
  rewrite Hbase. rewrite startsWithSlash_app by exact Hb. reflexivity.
Qed.

(** X12. The worktrees directory is always an absolute path, and under an
    absolute repository root it does not depend on the working directory
    of the process. *)
Theorem resolveWorktreesDir_absolute (rt : Runtime) (basePath : string)
    (cfg : Config) :
  startsWithSlash (resolveWorktreesDir rt basePath cfg) = true
  /\ (startsWithSlash basePath = true ->
      forall rt',
        resolveWorktreesDir rt' basePath cfg
        = resolveWorktreesDir rt basePath cfg).
Proof.
  unfold resolveWorktreesDir.
  destruct (startsWithSlash (worktreesDir cfg)) eqn:E.
  - split; [exact E | reflexivity].
  - split; [reflexivity|].
    intros Hb rt'. unfold resolve.
    rewrite !resolveFrom_absolute_base by assumption. reflexivity.
Qed.

Lemma append_assoc3 (a b c : string) : (a ++ b) ++ c = a ++ b ++ c.
Proof. induction a as [|x a IH]; simpl; [reflexivity | rewrite IH; reflexivity]. Qed.

(** A leading [./] leaves every stack of segments as it is. *)
Lemma normalizeString_dot (prefix rest : string) (allow : bool) :
  prefix = EmptyString \/ (exists q, prefix = q ++ "/") ->
  normalizeString (prefix ++ "./" ++ rest) allow
  = normalizeString (prefix ++ rest) allow.
Proof.
  intros [-> | [q ->]]; unfold normalizeString.
  - change (EmptyString ++ "./" ++ rest) with ("." ++ String "/" rest).
    rewrite splitOn_app. reflexivity.
  - rewrite !append_assoc3.
    change (q ++ "/" ++ "./" ++ rest) with (q ++ String "/" ("./" ++ rest)).
    change (q ++ "/" ++ rest) with (q ++ String "/" rest).
    rewrite !splitOn_app, !fold_left_app.
    change ("./" ++ rest) with ("." ++ String "/" rest).
    rewrite splitOn_app. reflexivity.
Qed.

(** The string [resolve] normalises, for a relative last part. *)
Lemma resolveFrom_relative (cwd base wd : string) (c : ascii) (tl : string) :
  wd = String c tl -> Ascii.eqb c "/" = false ->
  exists prefix,
    (prefix = EmptyString \/ exists q, prefix = q ++ "/")
    /\ forall wd' c' tl',
        wd' = String c' tl' -> Ascii.eqb c' "/" = false ->
        resolveFrom [cwd; base; wd'] = prefix ++ wd' ++ "/".
Proof.
  intros _ _.
  destruct base as [|b base].
  - destruct cwd as [|x cwd].
    + exists EmptyString. split; [left; reflexivity|].
      intros wd' c' tl' -> Hc'. cbn. unfold startsWithSlash. rewrite ?Hc'. reflexivity.
    + exists (String x cwd ++ "/"). split; [right; eexists; reflexivity|].
      intros wd' c' tl' -> Hc'. cbn. unfold startsWithSlash. rewrite ?Hc'. cbn.
      rewrite append_assoc3. reflexivity.
  - destruct (Ascii.eqb b "/") eqn:Eb.
    + exists (String b base ++ "/"). split; [right; eexists; reflexivity|].
      intros wd' c' tl' -> Hc'. cbn. unfold startsWithSlash. rewrite ?Hc', ?Eb. cbn. unfold startsWithSlash. rewrite ?Hc', ?Eb. cbn.
      rewrite append_assoc3. reflexivity.
    + destruct cwd as [|x cwd].
      * exists (String b base ++ "/"). split; [right; eexists; reflexivity|].
        intros wd' c' tl' -> Hc'. cbn. unfold startsWithSlash. rewrite ?Hc', ?Eb. cbn. unfold startsWithSlash. rewrite ?Hc', ?Eb. cbn.
        rewrite append_assoc3. reflexivity.
      * exists ((String x cwd ++ "/" ++ String b base) ++ "/").
        split; [right; eexists; reflexivity|].
        intros wd' c' tl' -> Hc'. cbn. unfold startsWithSlash. rewrite ?Hc', ?Eb. cbn. unfold startsWithSlash. rewrite ?Hc', ?Eb. cbn.
        rewrite !append_assoc3. reflexivity.
Qed.

(** X15. A leading [./] in the configured directory makes no difference:
    [./d] and [d] resolve to the same worktrees directory. *)
Theorem resolveWorktreesDir_ignores_dot_prefix (rt : Runtime)
    (basePath : string) (cfg cfg' : Config) (c : ascii) (tl : string) :
  Ascii.eqb c "/" = false ->
  worktreesDir cfg = "./" ++ String c tl ->
  worktreesDir cfg' = String c tl ->
  resolveWorktreesDir rt basePath cfg = resolveWorktreesDir rt basePath cfg'.
Proof.
  intros Hc E E'. unfold resolveWorktreesDir. rewrite E, E'.
  change (startsWithSlash ("./" ++ String c tl)) with false.
  change (startsWithSlash (String c tl)) with (Ascii.eqb c "/").
  rewrite Hc. unfold resolve. f_equal.
  destruct (@resolveFrom_relative (cwd rt) basePath (String c tl) c tl
              eq_refl Hc) as (prefix & Hp & Hr).
  rewrite (Hr (String c tl) c tl eq_refl Hc).
  rewrite (Hr ("./" ++ String c tl) "."%char ("/" ++ String c tl) eq_refl
             eq_refl).
  rewrite (append_assoc3 "./" (String c tl) "/").
  apply normalizeString_dot, Hp.
Qed.

End WorktreesDirFacts.

(** * Further properties of the plugin entry point *)

Section MorePluginFacts.

Variable OpenCodeClient : Type.
Variable createWezTermAdapter : TerminalAdapter.
Variable startTask :
  Plugin.StartTaskInput -> string -> Plugin.StartTaskOptions OpenCodeClient
  -> Result WorkspaceResult.
Variable JSON_stringify : value -> string.
Variable defaultHooks : HooksConfig.
Variable JSON_parse : string -> Result value.
Variable getGitRoot : Result string.

(** X13. The guarded [execute] always returns: the serialised result of
    [startTask] when that returns, and when [startTask] throws the
    serialised object with status [failed], the message [Error: ] followed
    by the error, and the task id of the call or [unknown]. Whenever the
    start failed, by a throw or by a result with status [failed], the
    serialised status is [failed] and the message is not empty. *)
Theorem execute_guarded_always_returns (env : Plugin.Closure OpenCodeClient)
    (args : Plugin.StartTaskInput) (context : Plugin.ToolContext) :
  exists payload,
    Plugin.execute startTask JSON_stringify env args context
    = Ok (JSON_stringify (VObj payload))
    /\ match startTask (Plugin.startTaskInput env args) (Plugin.basePath env)
               (Plugin.startTaskOptions env context) with
       | Ok result =>
           VObj payload = Plugin.resultPayload env result
           /\ getProp "status" payload = VStr (statusName (status result))
           /\ (status result = failed ->
               exists m, getProp "message" payload = VStr m
                         /\ m <> EmptyString)
       | Throw e =>
           getProp "status" payload = VStr "failed"
           /\ getProp "message" payload = VStr ("Error: " ++ e)
           /\ getProp "taskId" payload
              = VStr (strOr (Plugin.taskId args) "unknown")
       end.
Proof.
  pose proof (execute_never_raises startTask JSON_stringify env args context)
    as H.
  destruct (startTask _ _ _) as [result|e].
  - destruct H as [H Hm]. eexists. split; [exact H|].
    split; [reflexivity|]. split; [reflexivity|].
    intros Hs. eexists. split; [reflexivity|]. apply (Hm Hs).
  - eexists. split; [exact H|]. repeat split.
Qed.

(** X14. The plugin registers its tool exactly when it runs inside a
    repository: if [getGitRoot] throws the plugin resolves to the empty
    object, and otherwise, whatever the configuration files hold, to the
    [start-task] tool set up with the repository root, the configuration
    [loadConfig] returns for it, the terminal adapter of that
    configuration, none exactly for the terminal [none], and its resolved
    hooks. *)
Theorem TransmutePlugin_registers_in_repository (client : OpenCodeClient)
    (rt : Runtime) :
  match getGitRoot with
  | Throw _ =>
      Registration.TransmutePlugin createWezTermAdapter defaultHooks
        JSON_parse getGitRoot client rt
      = Ok (Registration.NoTools OpenCodeClient)
  | Ok root =>
      exists env,
        Registration.TransmutePlugin createWezTermAdapter defaultHooks
          JSON_parse getGitRoot client rt
        = Ok (Registration.StartTaskTool env)
        /\ Plugin.basePath env = root
        /\ (exists p,
               loadConfig defaultHooks JSON_parse rt root
               = Ok {| config := Plugin.config env;
                       source := Plugin.source env;
                       configPath := p |})
        /\ (Plugin.adapter env = None
            <-> terminal (Plugin.config env) = NoTerminal)
        /\ (terminal (Plugin.config env) <> NoTerminal ->
            Plugin.adapter env = Some createWezTermAdapter)
        /\ Plugin.resolvedHooks env
           = getHooksConfig defaultHooks (Plugin.config env)
  end.
Proof.
  unfold Registration.TransmutePlugin, Registration.initialize.
  destruct getGitRoot as [root|e]; cbn [bind tryCatch]; [|reflexivity].
  rewrite loadConfig_levels. cbn [bind tryCatch].
  eexists. split; [reflexivity|].
  cbn [Plugin.basePath Plugin.config Plugin.source Plugin.adapter
       Plugin.resolvedHooks].
  split; [reflexivity|]. split.
  { exists (configPath (Precedence.firstAvailable defaultHooks JSON_parse
                           rt root)).
    destruct (Precedence.firstAvailable defaultHooks JSON_parse rt root).
    reflexivity. }
  unfold Plugin.createTerminalAdapter.
  destruct (terminal (config (Precedence.firstAvailable defaultHooks
                                JSON_parse rt root)));
    repeat split; intros; try discriminate; try reflexivity;
    try contradiction.
Qed.

End MorePluginFacts.

(** * Properties of the task reordering *)

Section ReorderFacts.

Import Markdown.

Lemma keyIs_eq (k : string) (e : string * Task) :
  keyIs k e = true <-> fst e = k.
Proof. unfold keyIs. apply String.eqb_eq. Qed.

Lemma existsb_keyIs (k : string) (m : TaskMap) :
  existsb (keyIs k) m = true <-> In k (keys m).
Proof.
  unfold keys. rewrite existsb_exists, in_map_iff. split.
  - intros (e & He & Hk). exists e. split; [apply keyIs_eq, Hk | exact He].
  - intros (e & Hk & He). exists e. split; [exact He | apply keyIs_eq, Hk].
Qed.

Lemma existsb_keyIs_false (k : string) (m : TaskMap) :
  existsb (keyIs k) m = false <-> ~ In k (keys m).
Proof.
  rewrite <- existsb_keyIs. destruct (existsb (keyIs k) m); split;
    intros H; try discriminate; try reflexivity; exfalso; auto.
Qed.

Lemma strIn_In (x : string) (l : list string) : strIn x l = true <-> In x l.
Proof.
  unfold strIn. rewrite existsb_exists. split.
  - intros (y & Hy & E). apply String.eqb_eq in E. subst. exact Hy.
  - intros H. exists x. split; [exact H | apply String.eqb_refl].
Qed.

Lemma strIn_not_In (x : string) (l : list string) :
  strIn x l = false <-> ~ In x l.
Proof.
  rewrite <- strIn_In. destruct (strIn x l); split; intros H;
    try discriminate; try reflexivity; exfalso; auto.
Qed.

Lemma keys_replace (k : string) (v : Task) (m : TaskMap) :
  keys (map (fun e => if keyIs k e then (k, v) else e) m) = keys m.
Proof.
  unfold keys. induction m as [|e m IH]; simpl; [reflexivity|].
  rewrite IH. destruct (keyIs k e) eqn:E; [|reflexivity].
  apply keyIs_eq in E. simpl. congruence.
Qed.

Lemma keys_mapSet (k : string) (v : Task) (m : TaskMap) :
  keys (mapSet k v m)
  = if existsb (keyIs k) m then keys m else (keys m ++ [k])%list.
Proof.
  unfold mapSet. destruct (existsb (keyIs k) m).
  - apply keys_replace.
  - unfold keys. rewrite map_app. reflexivity.
Qed.

Lemma NoDup_mapSet (k : string) (v : Task) (m : TaskMap) :
  NoDup (keys m) -> NoDup (keys (mapSet k v m)).
Proof.
  intros H. rewrite keys_mapSet.
  destruct (existsb (keyIs k) m) eqn:E; [exact H|].
  apply existsb_keyIs_false in E.
  apply NoDup_app; [exact H | constructor; [intros [] | constructor] |].
  intros x Hx [<-|[]]. contradiction.
Qed.

Lemma keyed_mapSet (t : Task) (m : TaskMap) :
  keyed m -> keyed (mapSet (id t) t m).
Proof.
  intros H e. unfold mapSet.
  destruct (existsb (keyIs (id t)) m).
  - rewrite in_map_iff. intros (e0 & <- & He0).
    destruct (keyIs (id t) e0); [reflexivity | apply H, He0].
  - rewrite in_app_iff. intros [He | [<- | []]]; [apply H, He | reflexivity].
Qed.

Lemma mapOf_from (allTasks : list Task) (m : TaskMap) :
  NoDup (keys m) -> keyed m ->
  NoDup (keys (fold_left (fun m e => mapSet (fst e) (snd e) m)
                 (map (fun t => (id t, t)) allTasks) m))
  /\ keyed (fold_left (fun m e => mapSet (fst e) (snd e) m)
              (map (fun t => (id t, t)) allTasks) m).
Proof.
  revert m. induction allTasks as [|t l IH]; intros m Hn Hk; simpl.
  - split; assumption.
  - apply IH; [apply NoDup_mapSet, Hn | apply keyed_mapSet, Hk].
Qed.

Lemma taskMapOf_wf (allTasks : list Task) :
  NoDup (keys (taskMapOf allTasks)) /\ keyed (taskMapOf allTasks).
Proof.
  apply mapOf_from; [constructor | intros e []].
Qed.

(** With ids that are all different the map holds the tasks in their
    order. *)
Lemma mapOf_unique_from (allTasks : list Task) (m : TaskMap) :
  NoDup (keys m ++ map id allTasks)%list ->
  fold_left (fun m e => mapSet (fst e) (snd e) m)
    (map (fun t => (id t, t)) allTasks) m
  = (m ++ map (fun t => (id t, t)) allTasks)%list.
Proof.
  revert m. induction allTasks as [|t l IH]; intros m Hn; simpl.
  - rewrite app_nil_r. reflexivity.
  - assert (Hnew : existsb (keyIs (id t)) m = false).
    { apply existsb_keyIs_false. intros Hin.
      apply NoDup_app_remove_r in Hn as Hm.
      apply (NoDup_remove_2 _ _ _ Hn). apply in_or_app. left. exact Hin. }
    unfold mapSet at 2. rewrite Hnew. rewrite IH.
    + rewrite <- app_assoc. reflexivity.
    + unfold keys. rewrite map_app, <- app_assoc. exact Hn.
Qed.

Lemma taskMapOf_unique (allTasks : list Task) :
  NoDup (map id allTasks) ->
  taskMapOf allTasks = map (fun t => (id t, t)) allTasks.
Proof.
  intros H. unfold taskMapOf, mapOf.
  rewrite mapOf_unique_from; [reflexivity | exact H].
Qed.

(** Taking a task out of a map without repeated keys. *)
Lemma mapGet_split (k : string) (m : TaskMap) (t : Task) :
  NoDup (keys m) -> mapGet k m = Some t ->
  exists l1 l2,
    m = (l1 ++ (k, t) :: l2)%list
    /\ mapDelete k m = (l1 ++ l2)%list
    /\ ~ In k (keys (l1 ++ l2)%list).
Proof.
  unfold mapGet, mapDelete, keys.
  induction m as [|e m IH]; simpl; [discriminate|].
  intros Hn. inversion Hn as [|? ? Hnot Hn']; subst.
  destruct (keyIs k e) eqn:E.
  - intros [= <-]. exists [], m. apply keyIs_eq in E.
    destruct e as [k0 t0]. simpl in *. subst k0.
    assert (Hf : filter (fun e => negb (keyIs k e)) m = m).
    { clear IH Hn Hn'. induction m as [|x m IHm]; simpl; [reflexivity|].
      destruct (keyIs k x) eqn:Ex.
      - apply keyIs_eq in Ex. exfalso. apply Hnot. left. exact Ex.
      - simpl. rewrite IHm; [reflexivity|].
        intros Hin. apply Hnot. right. exact Hin. }
    rewrite Hf. repeat split. exact Hnot.
  - intros Hg. destruct (IH Hn' Hg) as (l1 & l2 & -> & Hd & Hno).
    exists (e :: l1)%list, l2. simpl. rewrite Hd. repeat split.
    intros [Hk|Hin]; [|exact (Hno Hin)].
    apply keyIs_eq in Hk. congruence.
Qed.

Lemma mapGet_none (k : string) (m : TaskMap) :
  mapGet k m = None <-> ~ In k (keys m).
Proof.
  unfold mapGet. rewrite <- existsb_keyIs_false.
  induction m as [|e m IH]; simpl; [tauto|].
  destruct (keyIs k e); simpl; [split; discriminate | exact IH].
Qed.

Lemma keys_valued (m : TaskMap) : keyed m -> map id (mapValues m) = keys m.
Proof.
  unfold mapValues, keys, keyed. intros H. rewrite map_map.
  apply map_ext_in. intros e He. symmetry. apply H, He.
Qed.

Lemma takeOrdered_known (acc : list Task) (m : TaskMap) (k : string)
    (t : Task) :
  mapGet k m = Some t ->
  takeOrdered (acc, m) k = ((acc ++ [t])%list, mapDelete k m).
Proof. unfold takeOrdered. cbn [fst snd]. intros ->. reflexivity. Qed.

Lemma takeOrdered_unknown (acc : list Task) (m : TaskMap) (k : string) :
  mapGet k m = None -> takeOrdered (acc, m) k = (acc, m).
Proof. unfold takeOrdered. cbn [fst snd]. intros ->. reflexivity. Qed.

(** The first loop moves tasks from the map to the list: nothing is lost
    or doubled, and the map stays a map. *)
Lemma loop_permutation (orderedTaskIds : list string) :
  forall (acc : list Task) (m : TaskMap),
    NoDup (keys m) -> keyed m ->
    let out := fold_left takeOrdered orderedTaskIds (acc, m) in
    Permutation (fst out ++ mapValues (snd out))%list
      (acc ++ mapValues m)%list
    /\ NoDup (keys (snd out)) /\ keyed (snd out).
Proof.
  induction orderedTaskIds as [|k rest IH]; intros acc m Hn Hk; simpl.
  - repeat split; auto.
  - destruct (mapGet k m) as [t|] eqn:Eg.
    2: { rewrite (takeOrdered_unknown acc m k Eg). apply IH; assumption. }
    rewrite (takeOrdered_known acc m k Eg).
    destruct (mapGet_split k m Hn Eg) as (l1 & l2 & -> & Hd & Hno).
    rewrite Hd.
    assert (Hn' : NoDup (keys (l1 ++ l2)%list)).
    { unfold keys in *. rewrite map_app in *. simpl in Hn.
      apply NoDup_remove_1 in Hn. exact Hn. }
    assert (Hk' : keyed (l1 ++ l2)%list).
    { intros e He. apply Hk. apply in_app_or in He.
      apply in_or_app. destruct He; [left | right; right]; assumption. }
    destruct (IH (acc ++ [t])%list (l1 ++ l2)%list Hn' Hk')
      as (Hp & Hn2 & Hk2).
    split; [|split; assumption].
    eapply Permutation_trans; [exact Hp|].
    unfold mapValues. rewrite !map_app. simpl.
    rewrite <- app_assoc. apply Permutation_app_head. simpl.
    apply Permutation_middle.
Qed.

(** The order the first loop produces. *)
Lemma loop_order (orderedTaskIds : list string) :
  forall (acc : list Task) (m : TaskMap),
    NoDup (keys m) -> keyed m ->
    let out := fold_left takeOrdered orderedTaskIds (acc, m) in
    map id (fst out)
    = (map id acc ++ requested (keys m) orderedTaskIds)%list
    /\ keys (snd out)
       = filter (fun k => negb (strIn k orderedTaskIds)) (keys m).
Proof.
  induction orderedTaskIds as [|k rest IH]; intros acc m Hn Hk; simpl.
  - rewrite app_nil_r. split; [reflexivity|].
    clear Hn Hk. generalize (keys m). intros l.
    induction l as [|x l IHl]; simpl; [reflexivity | congruence].
  - destruct (mapGet k m) as [t|] eqn:Eg.
    + rewrite (takeOrdered_known acc m k Eg).
      destruct (mapGet_split k m Hn Eg) as (l1 & l2 & -> & Hd & Hno).
      rewrite Hd.
      assert (Hin : strIn k (keys (l1 ++ (k, t) :: l2)%list) = true).
      { apply strIn_In. unfold keys. rewrite map_app. apply in_or_app.
        right. left. reflexivity. }
      rewrite Hin.
      assert (Hn' : NoDup (keys (l1 ++ l2)%list)).
      { unfold keys in *. rewrite map_app in *. simpl in Hn.
        apply NoDup_remove_1 in Hn. exact Hn. }
      assert (Hk' : keyed (l1 ++ l2)%list).
      { intros e He. apply Hk. apply in_app_or in He.
        apply in_or_app. destruct He; [left | right; right]; assumption. }
      assert (Hkeys : filter (fun y => negb (String.eqb y k))
                        (keys (l1 ++ (k, t) :: l2)%list)
                      = keys (l1 ++ l2)%list).
      { assert (Hf : forall l, ~ In k (keys l) ->
                       filter (fun y => negb (String.eqb y k)) (keys l)
                       = keys l).
        { intros l. unfold keys. induction l as [|e l IHl]; simpl;
            [reflexivity|].
          intros Hnot. destruct (String.eqb_spec (fst e) k) as [E|_].
          - exfalso. apply Hnot. left. exact E.
          - simpl. rewrite IHl; [reflexivity|].
            intros Hl. apply Hnot. right. exact Hl. }
        unfold keys in *. rewrite !map_app, filter_app. simpl.
        rewrite String.eqb_refl. simpl.
        rewrite map_app in Hno.
        rewrite (Hf l1), (Hf l2); [reflexivity | |];
          intros Hx; apply Hno; apply in_or_app; [right | left]; exact Hx. }
      destruct (IH (acc ++ [t])%list (l1 ++ l2)%list Hn' Hk') as (Ho & Hr).
      split.
      * rewrite Ho, map_app, <- app_assoc. simpl.
        assert (Hid : id t = k).
        { symmetry. apply (Hk (k, t)). apply in_or_app. right. left.
          reflexivity. }
        rewrite Hid, Hkeys. reflexivity.
      * rewrite Hr, <- Hkeys.
        clear. induction (keys (l1 ++ (k, t) :: l2)%list) as [|x l IHl]; simpl;
          [reflexivity|].
        destruct (String.eqb x k); simpl; [exact IHl|].
        destruct (strIn x rest); simpl; [exact IHl | rewrite IHl; reflexivity].
    + rewrite (takeOrdered_unknown acc m k Eg).
      apply mapGet_none in Eg.
      assert (Hin : strIn k (keys m) = false) by (apply strIn_not_In, Eg).
      rewrite Hin.
      destruct (IH acc m Hn Hk) as (Ho & Hr). split; [exact Ho|].
      rewrite Hr. clear - Eg.
      induction (keys m) as [|x l IHl]; simpl; [reflexivity|].
      destruct (String.eqb_spec x k) as [->|_].
      * exfalso. apply Eg. left. reflexivity.
      * simpl. rewrite IHl; [reflexivity|].
        intros Hl. apply Eg. right. exact Hl.
Qed.


Lemma reorderTasks_loop (allTasks : list Task) (orderedTaskIds : list string) :
  reorderTasks allTasks orderedTaskIds
  = (fst (fold_left takeOrdered orderedTaskIds ([], taskMapOf allTasks))
     ++ mapValues
          (snd (fold_left takeOrdered orderedTaskIds
                  ([], taskMapOf allTasks))))%list.
Proof.
  unfold reorderTasks.
  destruct (fold_left takeOrdered orderedTaskIds ([], taskMapOf allTasks)).
  reflexivity.
Qed.

Lemma mapValues_pairs (allTasks : list Task) :
  mapValues (map (fun t => (id t, t)) allTasks) = allTasks.
Proof.
  unfold mapValues. rewrite map_map. simpl. apply map_id.
Qed.

Lemma keys_pairs (allTasks : list Task) :
  keys (map (fun t => (id t, t)) allTasks) = map id allTasks.
Proof. unfold keys. rewrite map_map. reflexivity. Qed.

(** The ids of the reordered list, in terms of the keys of the map. *)
Lemma reorderTasks_ids (allTasks : list Task) (orderedTaskIds : list string) :
  map id (reorderTasks allTasks orderedTaskIds)
  = (requested (keys (taskMapOf allTasks)) orderedTaskIds
     ++ filter (fun k => negb (strIn k orderedTaskIds))
          (keys (taskMapOf allTasks)))%list.
Proof.
  destruct (taskMapOf_wf allTasks) as (Hn & Hk).
  rewrite reorderTasks_loop, map_app.
  destruct (loop_order orderedTaskIds [] Hn Hk) as (Ho & Hr).
  destruct (loop_permutation orderedTaskIds [] Hn Hk) as (_ & _ & Hk2).
  cbv zeta in *. rewrite Ho, (keys_valued Hk2), Hr. reflexivity.
Qed.

Lemma filter_others (x : string) (known : list string) (k : string) :
  In k (filter (fun y => negb (String.eqb y x)) known)
  <-> In k known /\ k <> x.
Proof.
  rewrite filter_In. split; intros (H & E); split; try exact H.
  - intros ->. rewrite String.eqb_refl in E. discriminate.
  - destruct (String.eqb_spec k x); [contradiction | reflexivity].
Qed.

Lemma requested_In (orderedTaskIds : list string) :
  forall (known : list string) (k : string),
    In k (requested known orderedTaskIds) ->
    In k known /\ In k orderedTaskIds.
Proof.
  induction orderedTaskIds as [|x rest IH]; intros known k; simpl;
    [intros []|].
  destruct (strIn x known) eqn:E.
  - intros [<-|H].
    + split; [apply strIn_In, E | left; reflexivity].
    + apply IH in H. destruct H as (H1 & H2).
      apply filter_others in H1. split; [apply H1 | right; exact H2].
  - intros H. apply IH in H. split; [apply H | right; apply H].
Qed.

Lemma requested_complete (orderedTaskIds : list string) :
  forall known : list string,
    NoDup orderedTaskIds ->
    (forall k, In k orderedTaskIds -> In k known) ->
    requested known orderedTaskIds = orderedTaskIds.
Proof.
  induction orderedTaskIds as [|x rest IH]; intros known Hn Hin; simpl;
    [reflexivity|].
  inversion Hn as [|? ? Hx Hn']; subst.
  assert (E : strIn x known = true)
    by (apply strIn_In, Hin; left; reflexivity).
  rewrite E. f_equal. apply IH; [exact Hn'|].
  intros k Hk. apply filter_others. split.
  - apply Hin. right. exact Hk.
  - intros ->. contradiction.
Qed.

Lemma keys_from (allTasks : list Task) :
  forall (m : TaskMap) (k : string),
    In k (keys (fold_left (fun m e => mapSet (fst e) (snd e) m)
                  (map (fun t => (id t, t)) allTasks) m))
    <-> In k (keys m) \/ In k (map id allTasks).
Proof.
  induction allTasks as [|t l IH]; intros m k; simpl; [tauto|].
  rewrite IH, keys_mapSet.
  destruct (existsb (keyIs (id t)) m) eqn:E.
  - apply existsb_keyIs in E. split; [tauto|].
    intros [H|[<-|H]]; tauto.
  - rewrite in_app_iff. simpl. tauto.
Qed.

Lemma keys_taskMapOf (allTasks : list Task) (k : string) :
  In k (keys (taskMapOf allTasks)) <-> In k (map id allTasks).
Proof.
  unfold taskMapOf, mapOf. rewrite keys_from. simpl. tauto.
Qed.

Lemma filter_none (orderedTaskIds known : list string) :
  (forall k, In k known -> In k orderedTaskIds) ->
  filter (fun k => negb (strIn k orderedTaskIds)) known = [].
Proof.
  induction known as [|x l IH]; intros H; simpl; [reflexivity|].
  assert (E : strIn x orderedTaskIds = true)
    by (apply strIn_In, H; left; reflexivity).
  rewrite E. simpl. apply IH. intros k Hk. apply H. right. exact Hk.
Qed.

(** An id that the map does not hold leaves a round of the loop without
    effect. *)
Lemma loop_skips (before after : list string) (k : string)
    (allTasks : list Task) :
  ~ In k (map id allTasks) \/ In k before ->
  fold_left takeOrdered (before ++ k :: after)%list ([], taskMapOf allTasks)
  = fold_left takeOrdered (before ++ after)%list ([], taskMapOf allTasks).
Proof.
  intros H. rewrite !fold_left_app. simpl. f_equal.
  destruct (taskMapOf_wf allTasks) as (Hn & Hk).
  destruct (loop_order before [] Hn Hk) as (_ & Hr). cbv zeta in Hr.
  destruct (fold_left takeOrdered before ([], taskMapOf allTasks))
    as [acc m] eqn:Ef.
  simpl in Hr. apply takeOrdered_unknown. apply mapGet_none.
  rewrite Hr, filter_In. intros (Hin & Hnot).
  destruct H as [H|H].
  - apply H, keys_taskMapOf, Hin.
  - apply strIn_In in H. rewrite H in Hnot. discriminate.
Qed.

(** The values of the map are the tasks that are the last ones with their
    id. *)
Lemma lastWithId_snoc (allTasks : list Task) (t u : Task) :
  lastWithId (allTasks ++ [t])%list u
  <-> u = t \/ (lastWithId allTasks u /\ id t <> id u).
Proof.
  unfold lastWithId. split.
  - intros (before & after & E & H).
    induction after as [|x after' _] using rev_ind.
    + left. apply app_inj_tail in E. symmetry. apply E.
    + right. rewrite app_comm_cons, app_assoc in E.
      apply app_inj_tail in E. destruct E as (E & ->). split.
      * exists before, after'. split; [exact E|].
        intros v Hv. apply H, in_or_app. left. exact Hv.
      * apply H, in_or_app. right. left. reflexivity.
  - intros [->|((before & after & -> & H) & Hne)].
    + exists allTasks, []. split; [reflexivity | intros v []].
    + exists before, (after ++ [t])%list. split.
      * rewrite <- app_assoc. reflexivity.
      * intros v Hv. apply in_app_or in Hv.
        destruct Hv as [Hv|[<-|[]]]; [apply H, Hv | exact Hne].
Qed.

Lemma values_mapSet (t u : Task) (m : TaskMap) :
  keyed m ->
  In u (mapValues (mapSet (id t) t m))
  <-> u = t \/ (In u (mapValues m) /\ id t <> id u).
Proof.
  intros Hk. unfold mapValues, mapSet.
  destruct (existsb (keyIs (id t)) m) eqn:E.
  - rewrite map_map, !in_map_iff. split.
    + intros (e & <- & He). destruct (keyIs (id t) e) eqn:Ee; simpl.
      * left. reflexivity.
      * right. split; [exists e; split; [reflexivity | exact He]|].
        intros Hid. rewrite <- (Hk e He) in Hid.
        assert (Ht : keyIs (id t) e = true) by (apply keyIs_eq; congruence).
        congruence.
    + intros [->|((e & <- & He) & Hne)].
      * apply existsb_exists in E. destruct E as (e & He & Ee).
        exists e. rewrite Ee. split; [reflexivity | exact He].
      * exists e. split; [|exact He].
        destruct (keyIs (id t) e) eqn:Ee; [|reflexivity].
        apply keyIs_eq in Ee. rewrite (Hk e He) in Ee. congruence.
  - rewrite map_app, in_app_iff. simpl.
    apply existsb_keyIs_false in E. split.
    + intros [H|[<-|[]]]; [|left; reflexivity].
      right. split; [exact H|]. intros Hid. apply E.
      apply in_map_iff in H. destruct H as (e & <- & He).
      unfold keys. apply in_map_iff. exists e. split; [|exact He].
      rewrite (Hk e He). congruence.
    + intros [->|(H & _)]; [right; left; reflexivity | left; exact H].
Qed.

Lemma taskMapOf_snoc (allTasks : list Task) (t : Task) :
  taskMapOf (allTasks ++ [t])%list = mapSet (id t) t (taskMapOf allTasks).
Proof.
  unfold taskMapOf, mapOf. rewrite map_app, fold_left_app. reflexivity.
Qed.

Lemma values_taskMapOf (allTasks : list Task) (u : Task) :
  In u (mapValues (taskMapOf allTasks)) <-> lastWithId allTasks u.
Proof.
  induction allTasks as [|t l IH] using rev_ind.
  - simpl. split; [intros [] | intros (b & a & E & _)].
    destruct b; discriminate.
  - rewrite taskMapOf_snoc, lastWithId_snoc, <- IH.
    apply values_mapSet. apply taskMapOf_wf.
Qed.

End ReorderFacts.

(** * What a reordering keeps, drops and puts where *)

Section ReorderTheorems.

Import Markdown.

(** X16. With ids that are all different the reordered list is a
    permutation of the parsed one, whatever the request holds: no task is
    lost, doubled or invented. *)
Theorem reorderTasks_permutation (allTasks : list Task)
    (orderedTaskIds : list string) :
  NoDup (map id allTasks) ->
  Permutation (reorderTasks allTasks orderedTaskIds) allTasks.
Proof.
  intros Hu. rewrite reorderTasks_loop.
  destruct (taskMapOf_wf allTasks) as (Hn & Hk).
  destruct (loop_permutation orderedTaskIds [] Hn Hk) as (Hp & _).
  cbv zeta in Hp. simpl in Hp.
  rewrite (taskMapOf_unique _ Hu), mapValues_pairs in Hp.
  rewrite (taskMapOf_unique _ Hu). exact Hp.
Qed.

(** X17. After a reordering no id stands twice in the list, whether or not
    the parsed list or the request repeated one. *)
Theorem reorderTasks_ids_unique (allTasks : list Task)
    (orderedTaskIds : list string) :
  NoDup (map id (reorderTasks allTasks orderedTaskIds)).
Proof.
  rewrite reorderTasks_loop.
  destruct (taskMapOf_wf allTasks) as (Hn & Hk).
  destruct (loop_permutation orderedTaskIds [] Hn Hk) as (Hp & _).
  cbv zeta in Hp. simpl in Hp.
  apply (Permutation_map id) in Hp. rewrite (keys_valued Hk) in Hp.
  apply (Permutation_NoDup (Permutation_sym Hp)). exact Hn.
Qed.

(** X18. A request that names every task once is the order of the result:
    the ids of the reordered list are the requested ids, one by one. *)
Theorem reorderTasks_follows_request (allTasks : list Task)
    (orderedTaskIds : list string) :
  NoDup orderedTaskIds ->
  (forall k, In k orderedTaskIds <-> In k (map id allTasks)) ->
  map id (reorderTasks allTasks orderedTaskIds) = orderedTaskIds.
Proof.
  intros Hn Hall. rewrite reorderTasks_ids.
  rewrite requested_complete, filter_none.
  - apply app_nil_r.
  - intros k Hk. apply Hall, keys_taskMapOf, Hk.
  - exact Hn.
  - intros k Hk. apply keys_taskMapOf, Hall, Hk.
Qed.

(** X19. The fallback of a partial request: the tasks it names come first,
    in the order of the request, and the tasks it leaves out follow in the
    order they had. *)
Theorem reorderTasks_unlisted_keep_order (allTasks : list Task)
    (orderedTaskIds : list string) :
  NoDup (map id allTasks) ->
  NoDup orderedTaskIds ->
  (forall k, In k orderedTaskIds -> In k (map id allTasks)) ->
  map id (reorderTasks allTasks orderedTaskIds)
  = (orderedTaskIds
     ++ filter (fun k => negb (strIn k orderedTaskIds))
          (map id allTasks))%list.
Proof.
  intros Hu Hn Hin. rewrite reorderTasks_ids.
  rewrite (taskMapOf_unique _ Hu), keys_pairs.
  rewrite requested_complete; [reflexivity | exact Hn | exact Hin].
Qed.

(** X20. An id without a task, and an id the request has named before,
    change nothing: the result is that of the request without it. *)
Theorem reorderTasks_ignores_stale_ids (allTasks : list Task)
    (before after : list string) (k : string) :
  ~ In k (map id allTasks) \/ In k before ->
  reorderTasks allTasks (before ++ k :: after)%list
  = reorderTasks allTasks (before ++ after)%list.
Proof.
  intros H. rewrite !reorderTasks_loop.
  rewrite loop_skips by exact H. reflexivity.
Qed.

(** X21. Of the tasks that share an id only the last one of the parsed
    list survives a reordering: a task is in the result exactly when no
    later task has its id. *)
Theorem reorderTasks_keeps_last_of_each_id (allTasks : list Task)
    (orderedTaskIds : list string) (t : Task) :
  In t (reorderTasks allTasks orderedTaskIds) <-> lastWithId allTasks t.
Proof.
  rewrite <- values_taskMapOf, reorderTasks_loop.
  destruct (taskMapOf_wf allTasks) as (Hn & Hk).
  destruct (loop_permutation orderedTaskIds [] Hn Hk) as (Hp & _).
  cbv zeta in Hp. simpl in Hp.
  split; intros H.
  - apply (Permutation_in _ Hp), H.
  - apply (Permutation_in _ (Permutation_sym Hp)), H.
Qed.

Lemma filter_status_length (items : list Task) :
  List.length items
  = List.length (filter (statusIs Done) items)
    + List.length (filter (statusIs InProgress) items)
    + List.length (filter (statusIs Todo) items)
    + List.length (filter (statusIs Blocked) items).
Proof.
  induction items as [|t l IH]; simpl; [reflexivity|].
  unfold statusIs in *. destruct (status t); simpl; lia.
Qed.

(** X22. The four counters of a project summary add up to its total: every
    task is counted under exactly one status. *)
Theorem taskStats_partition (items : list Task) :
  total (taskStats items)
  = done (taskStats items) + inProgress (taskStats items)
    + todo (taskStats items) + blocked (taskStats items).
Proof.
  unfold taskStats. cbn [total done inProgress todo blocked].
  apply filter_status_length.
Qed.

End ReorderTheorems.

(** X12 at the default directory, for a process inside the repository and
    one started elsewhere. *)
Lemma resolveWorktreesDir_absolute_witness :
  resolveWorktreesDir MoreExamples3.startedElsewhere "/repo"
    (Examples.withHooks Examples.someHooks)
  = resolveWorktreesDir Examples.repoWithoutConfig "/repo"
      (Examples.withHooks Examples.someHooks).
Proof.
  apply (proj2 (resolveWorktreesDir_absolute Examples.repoWithoutConfig
                  "/repo" (Examples.withHooks Examples.someHooks))).
  reflexivity.
Defined.

(** X15 at the default directory [./worktrees] and at [worktrees]. *)
Lemma resolveWorktreesDir_ignores_dot_prefix_witness :
  resolveWorktreesDir Examples.repoWithoutConfig "/repo"
    (Examples.withHooks Examples.someHooks)
  = resolveWorktreesDir Examples.repoWithoutConfig "/repo"
      MoreExamples3.plainDirectory.
Proof.
  apply (@resolveWorktreesDir_ignores_dot_prefix Examples.repoWithoutConfig
           "/repo" (Examples.withHooks Examples.someHooks)
           MoreExamples3.plainDirectory "w"%char "orktrees");
    reflexivity.
Defined.

(** X16 at three tasks and a request with an id that names none of them. *)
Lemma reorderTasks_permutation_witness :
  Permutation
    (Markdown.reorderTasks TaskExamples.threeTasks
       ["task-3"; "task-9"; "task-1"])
    TaskExamples.threeTasks.
Proof.
  apply (@reorderTasks_permutation TaskExamples.threeTasks
           ["task-3"; "task-9"; "task-1"]).
  repeat constructor; simpl; intuition discriminate.
Defined.

(** X18 at three tasks asked for in the order 3, 1, 2. *)
Lemma reorderTasks_follows_request_witness :
  map Markdown.id
    (Markdown.reorderTasks TaskExamples.threeTasks
       ["task-3"; "task-1"; "task-2"])
  = ["task-3"; "task-1"; "task-2"].
Proof.
  apply (@reorderTasks_follows_request TaskExamples.threeTasks
           ["task-3"; "task-1"; "task-2"]).
  - repeat constructor; simpl; intuition discriminate.
  - intros k. simpl. tauto.
Defined.

(** X19 at three tasks and a request for the third one only. *)
Lemma reorderTasks_unlisted_keep_order_witness :
  map Markdown.id (Markdown.reorderTasks TaskExamples.threeTasks ["task-3"])
  = ["task-3"; "task-1"; "task-2"].
Proof.
  apply (@reorderTasks_unlisted_keep_order TaskExamples.threeTasks
           ["task-3"]).
  - repeat constructor; simpl; intuition discriminate.
  - repeat constructor; simpl; intuition discriminate.
  - intros k. simpl. tauto.
Defined.

(** X20 at a request that names the second task twice. *)
Lemma reorderTasks_ignores_stale_ids_witness :
  Markdown.reorderTasks TaskExamples.threeTasks
    ["task-2"; "task-2"; "task-1"]
  = Markdown.reorderTasks TaskExamples.threeTasks ["task-2"; "task-1"].
Proof.
  apply (@reorderTasks_ignores_stale_ids TaskExamples.threeTasks
           ["task-2"] ["task-1"] "task-2").
  right. left. reflexivity.
Defined.

(** A document that uses the id [task-1] twice loses the earlier of the two
    tasks; the later one takes its place in the order. *)
Example reorderTasks_drops_earlier_duplicate :
  Markdown.reorderTasks TaskExamples.repeatedId ["task-2"]
  = [TaskExamples.aTask "task-2" "Build" Markdown.InProgress;
     TaskExamples.aTask "task-1" "Ship" Markdown.Todo].
Proof. reflexivity. Qed.
